(** * Commission Tracker: entry rules, list handlers, review workflow, upload queue

    A shallow embedding of the calculation and event-handler logic of the
    commission tracker (CommissionList, App, InvoiceReview, InvoiceUpload and
    the shared types), with the properties of the specification proved
    against it.

    Conventions of the embedding:
    - a JavaScript [number] is a binary64 [float] of the kernel: [+], [-],
      [*], [/], [<] and [===] are the IEEE-754 operations, with their
      rounding, [NaN], the infinities and the two zeros;
    - a JavaScript string is a [string]; the program's own string tests
      (equality, prefix, substring) are defined here, while the functions of
      the engine that depend on Unicode tables ([toLowerCase], [toUpperCase],
      [trim]), its [sort] and its date formatters are the fields of a
      [Runtime] that every handler takes as a parameter;
    - an optional property ([x?: string]) is an [option]; JavaScript
      truthiness of such a property is [truthy];
    - [window.confirm], [window.prompt] and [alert] are the nodes of a small
      interaction tree [ui], the user's answer being the argument of the
      continuation;
    - React state is passed explicitly; a handler returns the next component
      state together with the parent callback it fires, if any. *)

From Stdlib Require Import ZArith Uint63 Floats String Ascii List Bool Lia.
From stdpp Require Import base option list gmap strings.
Import ListNotations.

Local Open Scope string_scope.
Local Open Scope Z_scope.

(* Decimal literals are read as the nearest double, as the engine reads
   them. *)
#[local] Set Warnings "-inexact-float".

(** ** JavaScript values and primitives *)

Module Js.

(** The values a property of a commission entry can hold. *)
Inductive value : Type :=
| VUndefined
| VNull
| VString (s : string)
| VNumber (q : float).

(** [v === undefined || v === null] *)
Definition is_nullish (v : value) : bool :=
  match v with
  | VUndefined | VNull => true
  | _ => false
  end.

(** [a === b] *)
Definition strict_equals (a b : value) : bool :=
  match a, b with
  | VUndefined, VUndefined => true
  | VNull, VNull => true
  | VString s, VString t => String.eqb s t
  | VNumber p, VNumber q => PrimFloat.eqb p q
  | _, _ => false
  end.

(** [Number.isNaN(x)] *)
Definition is_nan (x : float) : bool := negb (PrimFloat.eqb x x).

(** The value is the number [NaN]. *)
Definition is_nan_value (v : value) : bool :=
  match v with
  | VNumber q => is_nan q
  | _ => false
  end.

(** [a < b] on two values of the same primitive type: numeric order on
    numbers, code-unit lexicographic order on strings. *)
Definition less_than (a b : value) : bool :=
  match a, b with
  | VString s, VString t => String.ltb s t
  | VNumber p, VNumber q => PrimFloat.ltb p q
  | _, _ => false
  end.

(** Truthiness of an optional string: [undefined] and [''] are falsy. *)
Definition truthy (o : option string) : bool :=
  match o with
  | Some s => negb (String.eqb s "")
  | None => false
  end.

(** Truthiness of a number: [0], [-0] and [NaN] are falsy. *)
Definition truthy_num (q : float) : bool :=
  negb (PrimFloat.eqb q 0) && negb (is_nan q).

(** [o || d] on an optional string. *)
Definition or_else (o : option string) (d : string) : string :=
  match o with
  | Some s => if String.eqb s "" then d else s
  | None => d
  end.

Definition lower_ascii (c : ascii) : ascii :=
  let n := nat_of_ascii c in
  if (Nat.leb 65 n && Nat.leb n 90)%bool then ascii_of_nat (n + 32) else c.

Definition upper_ascii (c : ascii) : ascii :=
  let n := nat_of_ascii c in
  if (Nat.leb 97 n && Nat.leb n 122)%bool then ascii_of_nat (n - 32) else c.

Fixpoint map_string (f : ascii -> ascii) (s : string) : string :=
  match s with
  | EmptyString => EmptyString
  | String c r => String (f c) (map_string f r)
  end.

(** The case conversions and the trimming of the engine, restricted to
    strings of ASCII characters, on which they agree with it.  They stand in
    for the engine where a handler is run on a concrete ASCII input. *)
Definition ascii_toLowerCase : string -> string := map_string lower_ascii.
Definition ascii_toUpperCase : string -> string := map_string upper_ascii.

Definition is_space (c : ascii) : bool :=
  let n := nat_of_ascii c in
  (Nat.eqb n 32 || (Nat.leb 9 n && Nat.leb n 13))%bool.

Fixpoint trim_start (s : string) : string :=
  match s with
  | EmptyString => EmptyString
  | String c r => if is_space c then trim_start r else s
  end.

Fixpoint trim_end (s : string) : string :=
  match s with
  | EmptyString => EmptyString
  | String c r =>
      match trim_end r with
      | EmptyString => if is_space c then EmptyString else String c EmptyString
      | t => String c t
      end
  end.

Definition ascii_trim (s : string) : string := trim_end (trim_start s).

(** [s.includes(sub)] *)
Fixpoint includes (s sub : string) : bool :=
  String.prefix sub s ||
  match s with
  | EmptyString => false
  | String _ r => includes r sub
  end.

(** The double-quote character, for messages that quote a value. *)
Definition dquote : string := String (ascii_of_nat 34) EmptyString.

(** [s.startsWith(p)] *)
Definition startsWith (s p : string) : bool := String.prefix p s.

(** [arr.slice(0, e)]: a negative end counts from the end of the array. *)
Definition slice0 {A : Type} (e : Z) (l : list A) : list A :=
  let len := Z.of_nat (length l) in
  let k := if e <? 0 then Z.max (len + e) 0 else Z.min e len in
  firstn (Z.to_nat k) l.

(** The integer [n] for which [n / 100] is nearest to the exact value of
    [|x|], the larger one of two that are equally near: step 8 of
    [Number.prototype.toFixed] with two digits.  [x] is finite; its exact
    value is [m * 2 ^ e]. *)
Definition hundredths (x : float) : Z :=
  match Prim2SF (PrimFloat.abs x) with
  | S754_finite _ m e =>
      if (0 <=? e)%Z then (100 * Z.pos m * 2 ^ e)%Z
      else ((200 * Z.pos m + 2 ^ (- e)) / 2 ^ (1 - e))%Z
  | _ => 0%Z
  end.

(** [Number(x.toFixed(2))].  Below [2 ^ 46] the digits that [toFixed] prints
    are those of [hundredths x], an integer below [2 ^ 53], and reading them
    back is the correctly rounded quotient by 100, with the sign of [x] when
    [x < 0].  From [2 ^ 46] on, where two doubles are at least [1 / 64]
    apart, and for the infinities and [NaN], reading the printed digits back
    gives [x] again. *)
Definition toFixed2 (x : float) : float :=
  if is_nan x then x
  else if PrimFloat.leb 0x1p46 (PrimFloat.abs x) then x
  else
    let r := (PrimFloat.of_uint63 (Uint63.of_Z (hundredths x)) / 100)%float in
    if PrimFloat.ltb x 0 then (- r)%float else r.

End Js.

(** ** Interaction with the user *)

(** The blocking browser dialogs a handler can open before it returns. *)
Inductive ui (A : Type) : Type :=
| Ret (a : A)
| Alert (msg : string) (k : ui A)
| Confirm (msg : string) (k : bool -> ui A)
| Prompt (msg dflt : string) (k : option string -> ui A).

Arguments Ret {A} a.
Arguments Alert {A} msg k.
Arguments Confirm {A} msg k.
Arguments Prompt {A} msg dflt k.

(** [outcome t a]: the handler [t] can return [a], for some answers of the
    user. *)
Inductive outcome {A : Type} : ui A -> A -> Prop :=
| out_ret a : outcome (Ret a) a
| out_alert msg k a : outcome k a -> outcome (Alert msg k) a
| out_confirm msg k b a : outcome (k b) a -> outcome (Confirm msg k) a
| out_prompt msg d k r a : outcome (k r) a -> outcome (Prompt msg d k) a.

(** ** Data model (types.ts) *)

Inductive UserRole : Type := ADMIN | MANAGER | USER.

Inductive CommissionStatus : Type := UNPAID | ELIGIBLE | PAID.

Definition status_string (s : CommissionStatus) : string :=
  match s with
  | UNPAID => "unpaid"
  | ELIGIBLE => "eligible"
  | PAID => "paid"
  end.

Definition status_eqb (a b : CommissionStatus) : bool :=
  match a, b with
  | UNPAID, UNPAID | ELIGIBLE, ELIGIBLE | PAID, PAID => true
  | _, _ => false
  end.

Definition role_eqb (a b : UserRole) : bool :=
  match a, b with
  | ADMIN, ADMIN | MANAGER, MANAGER | USER, USER => true
  | _, _ => false
  end.

Record Profile : Type := mkProfile {
  profile_id : string;
  email : string;
  full_name : string;
  role : UserRole;
  team_id : option string;
  default_commission_rate : float
}.

Record CommissionEntry : Type := mkEntry {
  id : string;
  user_id : string;
  invoice_number : string;
  receipt_number : option string;
  customer : string;
  project : string;
  amount_before_vat : float;
  cost_before_vat : float;
  commission_rate : float;
  tax : float;
  net_total : float;
  net_to_pay : float;
  invoice_month : string;
  client_paid_date : option string;
  commission_status : CommissionStatus;
  company_paid_date : option string;
  note : option string;
  file_name : option string
}.

(** [keyof CommissionEntry] *)
Inductive field : Type :=
| F_id | F_user_id | F_invoice_number | F_receipt_number | F_customer
| F_project | F_amount_before_vat | F_cost_before_vat | F_commission_rate
| F_tax | F_net_total | F_net_to_pay | F_invoice_month | F_client_paid_date
| F_commission_status | F_company_paid_date | F_note | F_file_name.

Definition field_name (f : field) : string :=
  match f with
  | F_id => "id"
  | F_user_id => "user_id"
  | F_invoice_number => "invoice_number"
  | F_receipt_number => "receipt_number"
  | F_customer => "customer"
  | F_project => "project"
  | F_amount_before_vat => "amount_before_vat"
  | F_cost_before_vat => "cost_before_vat"
  | F_commission_rate => "commission_rate"
  | F_tax => "tax"
  | F_net_total => "net_total"
  | F_net_to_pay => "net_to_pay"
  | F_invoice_month => "invoice_month"
  | F_client_paid_date => "client_paid_date"
  | F_commission_status => "commission_status"
  | F_company_paid_date => "company_paid_date"
  | F_note => "note"
  | F_file_name => "file_name"
  end.

(** [k1 === k2] on two property names. *)
Definition field_eqb (a b : field) : bool :=
  String.eqb (field_name a) (field_name b).

Definition opt_value (o : option string) : Js.value :=
  match o with
  | Some s => Js.VString s
  | None => Js.VUndefined
  end.

(** [e[key]] *)
Definition get_field (key : field) (e : CommissionEntry) : Js.value :=
  match key with
  | F_id => Js.VString (id e)
  | F_user_id => Js.VString (user_id e)
  | F_invoice_number => Js.VString (invoice_number e)
  | F_receipt_number => opt_value (receipt_number e)
  | F_customer => Js.VString (customer e)
  | F_project => Js.VString (project e)
  | F_amount_before_vat => Js.VNumber (amount_before_vat e)
  | F_cost_before_vat => Js.VNumber (cost_before_vat e)
  | F_commission_rate => Js.VNumber (commission_rate e)
  | F_tax => Js.VNumber (tax e)
  | F_net_total => Js.VNumber (net_total e)
  | F_net_to_pay => Js.VNumber (net_to_pay e)
  | F_invoice_month => Js.VString (invoice_month e)
  | F_client_paid_date => opt_value (client_paid_date e)
  | F_commission_status => Js.VString (status_string (commission_status e))
  | F_company_paid_date => opt_value (company_paid_date e)
  | F_note => opt_value (note e)
  | F_file_name => opt_value (file_name e)
  end.

(** ** The engine *)

(** The functions of the JavaScript engine that the handlers call and that
    are not part of the program: the Unicode case conversions and trimming
    of strings, [Array.prototype.sort], and the two locale formats of
    [Date.prototype.toLocaleDateString] that the export uses. *)
Record Runtime : Type := mkRuntime {
  toLowerCase : string -> string;
  toUpperCase : string -> string;
  trim : string -> string;
  array_sort :
    (CommissionEntry -> CommissionEntry -> Z) -> list CommissionEntry ->
    list CommissionEntry;
  toLocaleDateString_enGB : string -> string;
  toLocaleMonthYear_enUS : string -> string
}.

(** A stable insertion sort: an element goes before the first element of
    the sorted rest that the comparator does not put before it. *)
Fixpoint sort_insert {A : Type} (cmp : A -> A -> Z) (x : A) (l : list A)
  : list A :=
  match l with
  | [] => [x]
  | y :: rest =>
      if (cmp x y <=? 0)%Z then x :: y :: rest
      else y :: sort_insert cmp x rest
  end.

Definition insertion_sort {A : Type} (cmp : A -> A -> Z) (l : list A) : list A :=
  fold_right (sort_insert cmp) [] l.

(** An engine for ASCII strings, with a stable insertion sort and dates
    printed as they are stored. *)
Definition ascii_runtime : Runtime :=
  {| toLowerCase := Js.ascii_toLowerCase;
     toUpperCase := Js.ascii_toUpperCase;
     trim := Js.ascii_trim;
     array_sort := insertion_sort;
     toLocaleDateString_enGB := fun d => d;
     toLocaleMonthYear_enUS := fun d => d |}.

(** ** Entry calculation rules *)

(** The two derived fields, as every handler computes them, in double
    precision: [netTotal = amount - cost] and
    [netToPay = netTotal * (rate / 100)]. *)
Definition netTotal_of (amount cost : float) : float := (amount - cost)%float.
Definition netToPay_of (netTotal rate : float) : float :=
  (netTotal * (rate / 100))%float.

(** The derived fields of [e] are the doubles that this computation gives
    from its amount, cost and rate. *)
Definition derived_ok (e : CommissionEntry) : Prop :=
  net_total e = (amount_before_vat e - cost_before_vat e)%float /\
  net_to_pay e = (net_total e * (commission_rate e / 100))%float.

(** ** Inline edits *)

Inductive text_field : Type :=
| T_id | T_user_id | T_invoice_number | T_receipt_number | T_customer
| T_project | T_invoice_month | T_client_paid_date | T_company_paid_date
| T_note | T_file_name.

Inductive num_field : Type :=
| N_amount_before_vat | N_cost_before_vat | N_commission_rate | N_tax
| N_net_total | N_net_to_pay.

(** The pair [(field, value)] an input of the table hands to
    [handleInlineUpdate]; a numeric payload is [Number(value)]. *)
Inductive edit : Type :=
| EditText (f : text_field) (s : string)
| EditNumber (f : num_field) (q : float)
| EditStatus (s : CommissionStatus).

Definition edit_field (ed : edit) : field :=
  match ed with
  | EditText T_id _ => F_id
  | EditText T_user_id _ => F_user_id
  | EditText T_invoice_number _ => F_invoice_number
  | EditText T_receipt_number _ => F_receipt_number
  | EditText T_customer _ => F_customer
  | EditText T_project _ => F_project
  | EditText T_invoice_month _ => F_invoice_month
  | EditText T_client_paid_date _ => F_client_paid_date
  | EditText T_company_paid_date _ => F_company_paid_date
  | EditText T_note _ => F_note
  | EditText T_file_name _ => F_file_name
  | EditNumber N_amount_before_vat _ => F_amount_before_vat
  | EditNumber N_cost_before_vat _ => F_cost_before_vat
  | EditNumber N_commission_rate _ => F_commission_rate
  | EditNumber N_tax _ => F_tax
  | EditNumber N_net_total _ => F_net_total
  | EditNumber N_net_to_pay _ => F_net_to_pay
  | EditStatus _ => F_commission_status
  end.

(** [{ ...entry, [field]: updatedValue }] *)
Definition apply_edit (e : CommissionEntry) (ed : edit) : CommissionEntry :=
  {| id := match ed with EditText T_id s => s | _ => id e end;
     user_id := match ed with EditText T_user_id s => s | _ => user_id e end;
     invoice_number :=
       match ed with EditText T_invoice_number s => s | _ => invoice_number e end;
     receipt_number :=
       match ed with
       | EditText T_receipt_number s => Some s
       | _ => receipt_number e
       end;
     customer := match ed with EditText T_customer s => s | _ => customer e end;
     project := match ed with EditText T_project s => s | _ => project e end;
     amount_before_vat :=
       match ed with
       | EditNumber N_amount_before_vat q => q
       | _ => amount_before_vat e
       end;
     cost_before_vat :=
       match ed with
       | EditNumber N_cost_before_vat q => q
       | _ => cost_before_vat e
       end;
     commission_rate :=
       match ed with
       | EditNumber N_commission_rate q => q
       | _ => commission_rate e
       end;
     tax := match ed with EditNumber N_tax q => q | _ => tax e end;
     net_total := match ed with EditNumber N_net_total q => q | _ => net_total e end;
     net_to_pay :=
       match ed with EditNumber N_net_to_pay q => q | _ => net_to_pay e end;
     invoice_month :=
       match ed with EditText T_invoice_month s => s | _ => invoice_month e end;
     client_paid_date :=
       match ed with
       | EditText T_client_paid_date s => Some s
       | _ => client_paid_date e
       end;
     commission_status :=
       match ed with EditStatus s => s | _ => commission_status e end;
     company_paid_date :=
       match ed with
       | EditText T_company_paid_date s => Some s
       | _ => company_paid_date e
       end;
     note := match ed with EditText T_note s => Some s | _ => note e end;
     file_name :=
       match ed with EditText T_file_name s => Some s | _ => file_name e end |}.

(** [{ ...e, company_paid_date: date }] *)
Definition with_company_paid_date (e : CommissionEntry) (date : string)
  : CommissionEntry :=
  apply_edit e (EditText T_company_paid_date date).

(** [e.commission_status = s] *)
Definition with_status (e : CommissionEntry) (s : CommissionStatus)
  : CommissionEntry :=
  apply_edit e (EditStatus s).

(** ** App: the owner of the commission collection *)

(** [handleAddCommission]: [setCommissions(prev => [entry, ...prev])] *)
Definition handleAddCommission (entry : CommissionEntry)
  (commissions : list CommissionEntry) : list CommissionEntry :=
  entry :: commissions.

(** [handleSaveCommission]: [setCommissions([entry, ...commissions])] *)
Definition handleSaveCommission (entry : CommissionEntry)
  (commissions : list CommissionEntry) : list CommissionEntry :=
  entry :: commissions.

(** [handleDeleteCommission] *)
Definition handleDeleteCommission (i : string)
  (commissions : list CommissionEntry) : list CommissionEntry :=
  List.filter (fun c => negb (String.eqb (id c) i)) commissions.

(** The body of [handleUpdateCommission] before the state update: the entry
    with both totals recalculated. *)
Definition recalculate (updatedEntry : CommissionEntry) : CommissionEntry :=
  let netTotal :=
    netTotal_of (amount_before_vat updatedEntry) (cost_before_vat updatedEntry) in
  let netToPay := netToPay_of netTotal (commission_rate updatedEntry) in
  apply_edit (apply_edit updatedEntry (EditNumber N_net_total netTotal))
    (EditNumber N_net_to_pay netToPay).

(** [handleUpdateCommission]:
    [setCommissions(prev => prev.map(c => c.id === entry.id ? entry : c))] *)
Definition handleUpdateCommission (updatedEntry : CommissionEntry)
  (commissions : list CommissionEntry) : list CommissionEntry :=
  let entry := recalculate updatedEntry in
  map (fun c => if String.eqb (id c) (id entry) then entry else c) commissions.

(** ** CommissionList: props and state *)

Inductive ViewMode : Type := Personal | Team.

Inductive direction : Type := Asc | Desc.

Record SortConfig : Type := mkSortConfig {
  key : field;
  sort_direction : direction
}.

(** [Partial<CommissionEntry>], the fields of the manual-add form. *)
Record NewEntry : Type := mkNewEntry {
  new_invoice_number : option string;
  new_receipt_number : option string;
  new_customer : option string;
  new_project : option string;
  new_amount_before_vat : option float;
  new_cost_before_vat : option float;
  new_commission_rate : option float;
  new_tax : option float;
  new_invoice_month : option string;
  new_note : option string;
  new_file_name : option string
}.

(** [{ cost_before_vat: 0, tax: 0, commission_rate: user.default_commission_rate }] *)
Definition blank_entry (u : Profile) : NewEntry :=
  {| new_invoice_number := None;
     new_receipt_number := None;
     new_customer := None;
     new_project := None;
     new_amount_before_vat := None;
     new_cost_before_vat := Some 0%float;
     new_commission_rate := Some (default_commission_rate u);
     new_tax := Some 0%float;
     new_invoice_month := None;
     new_note := None;
     new_file_name := None |}.

(** The props of [CommissionList].  Of its three callbacks, [onUpdate] and
    [onDelete] are [handleUpdateCommission] and [handleDeleteCommission] at
    both places that render the list; [onAdd] differs between them and is a
    prop here: what it does to the collection of [App]. *)
Record ListProps : Type := mkListProps {
  user : Profile;
  entries : list CommissionEntry;
  teamEntries : list CommissionEntry;
  profiles : list Profile;
  allowUserFilter : bool;
  readOnly : bool;
  onAdd : CommissionEntry -> list CommissionEntry -> list CommissionEntry
}.

(** [onAdd={() => {}}], the callback [AdminPanel] gives its list. *)
Definition ignore_add (entry : CommissionEntry)
  (commissions : list CommissionEntry) : list CommissionEntry :=
  commissions.

Record ListState : Type := mkListState {
  searchTerm : string;
  statusFilter : option CommissionStatus;    (* [None] is 'all' *)
  monthFilter : string;
  userFilter : option string;                (* [None] is 'all' *)
  sortConfig : option SortConfig;
  viewMode : ViewMode;
  isAddModalOpen : bool;
  newEntry : NewEntry;
  invalidFields : gmap string bool
}.

Definition set_invalidFields (s : ListState) (m : gmap string bool) : ListState :=
  {| searchTerm := searchTerm s;
     statusFilter := statusFilter s;
     monthFilter := monthFilter s;
     userFilter := userFilter s;
     sortConfig := sortConfig s;
     viewMode := viewMode s;
     isAddModalOpen := isAddModalOpen s;
     newEntry := newEntry s;
     invalidFields := m |}.

(** [setIsAddModalOpen(false); setNewEntry({...})] *)
Definition close_add_modal (p : ListProps) (s : ListState) : ListState :=
  {| searchTerm := searchTerm s;
     statusFilter := statusFilter s;
     monthFilter := monthFilter s;
     userFilter := userFilter s;
     sortConfig := sortConfig s;
     viewMode := viewMode s;
     isAddModalOpen := false;
     newEntry := blank_entry (user p);
     invalidFields := invalidFields s |}.

Definition is_team_view (p : ListProps) (s : ListState) : bool :=
  role_eqb (role (user p)) MANAGER &&
  match viewMode s with Team => true | Personal => false end.

Definition isViewReadOnly (p : ListProps) (s : ListState) : bool :=
  readOnly p || is_team_view p s.

Definition activeEntries (p : ListProps) (s : ListState) : list CommissionEntry :=
  if is_team_view p s then teamEntries p else entries p.

(** ** CommissionList: the sort comparator *)

(** The comparator handed to [result.sort], on the two key values. *)
Definition compareValues (d : direction) (aValue bValue : Js.value) : Z :=
  if Js.strict_equals aValue bValue then 0
  else if Js.is_nullish aValue then 1
  else if Js.is_nullish bValue then -1
  else
    let comparison := if Js.less_than aValue bValue then -1 else 1 in
    match d with
    | Asc => comparison
    | Desc => - comparison
    end.

Definition sortComparator (cfg : SortConfig) (a b : CommissionEntry) : Z :=
  compareValues (sort_direction cfg) (get_field (key cfg) a) (get_field (key cfg) b).

(** [handleSort] *)
Definition handleSort (k : field) (current : option SortConfig) : SortConfig :=
  {| key := k;
     sort_direction :=
       match current with
       | Some c =>
           if field_eqb (key c) k then
             match sort_direction c with Asc => Desc | Desc => Asc end
           else Asc
       | None => Asc
       end |}.

(** ** CommissionList: inline edits *)

(** [validateField] *)
Definition validateField (rt : Runtime) (ed : edit) : bool :=
  match ed with
  | EditNumber N_amount_before_vat q => negb (PrimFloat.ltb q 0)
  | EditNumber N_cost_before_vat q => negb (PrimFloat.ltb q 0)
  | EditNumber N_commission_rate q =>
      negb (PrimFloat.ltb q 0 || PrimFloat.ltb 100 q)
  | EditText T_invoice_number s =>
      negb (String.eqb s "" || String.eqb (trim rt s) "")
  | _ => true
  end.

(** The key [`${id}-${field}`] of the validation map. *)
Definition invalid_key (i : string) (f : field) : string :=
  i ++ "-" ++ field_name f.

Definition is_paid (s : CommissionStatus) : bool := status_eqb s PAID.

Definition company_date_prompt : string :=
  "Please enter the Company Paid Date (YYYY-MM-DD)".

(** [handleInlineUpdate].  [today] is [new Date().toISOString().slice(0, 10)],
    the default offered by the prompt.  The result is the next component
    state and the argument of [onUpdate], when it is called. *)
Definition handleInlineUpdate (rt : Runtime) (p : ListProps) (s : ListState)
  (today : string) (i : string) (ed : edit)
  : ui (ListState * option CommissionEntry) :=
  if isViewReadOnly p s then Ret (s, None)
  else
    let isValid := validateField rt ed in
    let s1 :=
      set_invalidFields s
        (<[invalid_key i (edit_field ed) := negb isValid]> (invalidFields s)) in
    match List.find (fun e => String.eqb (id e) i) (activeEntries p s) with
    | None => Ret (s1, None)
    | Some entry =>
        let updatedEntry := apply_edit entry ed in
        let date_logic :=
          match ed with
          | EditText T_client_paid_date v =>
              if Js.truthy (Some v) && status_eqb (commission_status entry) UNPAID
              then with_status updatedEntry ELIGIBLE
              else updatedEntry
          | _ => updatedEntry
          end in
        match ed with
        | EditStatus st =>
            if is_paid st && negb (Js.truthy (company_paid_date entry)) then
              Prompt company_date_prompt today (fun date =>
                match date with
                | Some d =>
                    if Js.truthy date
                    then Ret (s1, Some (with_company_paid_date updatedEntry d))
                    else Ret (s1, Some date_logic)
                | None => Ret (s1, Some date_logic)
                end)
            else Ret (s1, Some date_logic)
        | _ => Ret (s1, Some date_logic)
        end
    end.

(** What the collection becomes when the parent runs the callback. *)
Definition after_update (r : ListState * option CommissionEntry)
  (commissions : list CommissionEntry) : list CommissionEntry :=
  match snd r with
  | Some e => handleUpdateCommission e commissions
  | None => commissions
  end.

(** ** CommissionList: the manual-add form *)

Definition required_fields_alert : string := "Please fill in required fields".

Definition duplicate_confirm (inv : string) : string :=
  "Invoice number " ++ Js.dquote ++ inv ++ Js.dquote ++
  " already exists. Do you want to add it anyway?".

(** [Number(x) || d] on an optional number of the form. *)
Definition number_or (o : option float) (d : float) : float :=
  match o with
  | Some q => if Js.truthy_num q then q else d
  | None => d
  end.

(** [activeEntries.some(e => e.invoice_number.toLowerCase() ===
    newEntry.invoice_number?.toLowerCase())] *)
Definition has_duplicate (rt : Runtime) (active : list CommissionEntry)
  (inv : string) : bool :=
  existsb
    (fun e => String.eqb (toLowerCase rt (invoice_number e)) (toLowerCase rt inv))
    active.

(** The entry [handleAddSubmit] builds once the gates are passed; [uuid] is
    the result of [crypto.randomUUID()]. *)
Definition build_entry (p : ListProps) (n : NewEntry) (uuid inv : string)
  (amount : float) (month : string) : CommissionEntry :=
  let cost := number_or (new_cost_before_vat n) 0%float in
  let rate :=
    number_or (new_commission_rate n) (default_commission_rate (user p)) in
  let netTotal := netTotal_of amount cost in
  let netToPay := netToPay_of netTotal rate in
  {| id := uuid;
     user_id := profile_id (user p);
     invoice_number := inv;
     receipt_number := new_receipt_number n;
     customer := Js.or_else (new_customer n) "Unknown";
     project := Js.or_else (new_project n) "";
     amount_before_vat := amount;
     cost_before_vat := cost;
     commission_rate := rate;
     tax := number_or (new_tax n) 0%float;
     net_total := netTotal;
     net_to_pay := netToPay;
     invoice_month := month;
     client_paid_date := None;
     commission_status := UNPAID;
     company_paid_date := None;
     note := new_note n;
     file_name := new_file_name n |}.

(** [handleAddSubmit].  The result is the next component state and the
    argument of [onAdd], when it is called. *)
Definition handleAddSubmit (rt : Runtime) (p : ListProps) (s : ListState)
  (uuid : string) : ui (ListState * option CommissionEntry) :=
  let n := newEntry s in
  match new_invoice_number n, new_amount_before_vat n, new_invoice_month n with
  | Some inv, Some amount, Some month =>
      if negb (Js.truthy (Some inv)) || negb (Js.truthy_num amount)
         || negb (Js.truthy (Some month))
      then Alert required_fields_alert (Ret (s, None))
      else
        let proceed :=
          Ret (close_add_modal p s, Some (build_entry p n uuid inv amount month)) in
        if has_duplicate rt (activeEntries p s) inv then
          Confirm (duplicate_confirm inv) (fun ok =>
            if ok then proceed else Ret (s, None))
        else proceed
  | _, _, _ => Alert required_fields_alert (Ret (s, None))
  end.

(** What the collection becomes when the list calls its [onAdd] prop. *)
Definition after_add (p : ListProps) (r : ListState * option CommissionEntry)
  (commissions : list CommissionEntry) : list CommissionEntry :=
  match snd r with
  | Some e => onAdd p e commissions
  | None => commissions
  end.

(** ** CommissionList: the filtered view and the export *)

Inductive cell : Type :=
| CText (s : string)
| CNumber (q : float).

(** One object of the exported [data] array: its keys in insertion order. *)
Definition row : Type := list (string * cell).

Fixpoint cell_of (r : row) (column : string) : option cell :=
  match r with
  | [] => None
  | (k, c) :: rest => if String.eqb k column then Some c else cell_of rest column
  end.

Inductive ExportResult : Type :=
| NoExport
| ExportRefused (alert : string)
| WriteFile (filename sheet : string) (data : list row) (wscols : list Z).

Definition export_limit_alert : string :=
  "Export limited to 5,000 rows. Please filter your data.".

(** [list.reduce((sum, e) => sum + f(e), 0)] *)
Definition sum_of (f : CommissionEntry -> float) (l : list CommissionEntry)
  : float :=
  fold_left (fun sum e => (sum + f e)%float) l 0%float.

(** The sum of the numbers that the rows hold in one column. *)
Definition column_sum (column : string) (rows : list row) : float :=
  fold_left
    (fun sum r =>
       match cell_of r column with
       | Some (CNumber q) => (sum + q)%float
       | _ => sum
       end)
    rows 0%float.

Section ListView.

Variable rt : Runtime.

Definition matches_search (lower : string) (e : CommissionEntry) : bool :=
  Js.includes (toLowerCase rt (customer e)) lower ||
  Js.includes (toLowerCase rt (invoice_number e)) lower ||
  match receipt_number e with
  | Some r => Js.includes (toLowerCase rt r) lower
  | None => false
  end ||
  Js.includes (toLowerCase rt (project e)) lower.

(** The [filteredEntries] memo. *)
Definition filteredEntries (p : ListProps) (s : ListState) : list CommissionEntry :=
  let result := activeEntries p s in
  let result :=
    if Js.truthy (Some (searchTerm s))
    then List.filter (matches_search (toLowerCase rt (searchTerm s))) result
    else result in
  let result :=
    match statusFilter s with
    | Some st => List.filter (fun e => status_eqb (commission_status e) st) result
    | None => result
    end in
  let result :=
    if Js.truthy (Some (monthFilter s))
    then List.filter (fun e => Js.startsWith (invoice_month e) (monthFilter s)) result
    else result in
  let result :=
    match userFilter s with
    | Some u =>
        if allowUserFilter p
        then List.filter (fun e => String.eqb (user_id e) u) result
        else result
    | None => result
    end in
  match sortConfig s with
  | Some cfg => array_sort rt (sortComparator cfg) result
  | None => result
  end.

Definition fmtDate (d : option string) : string :=
  match d with
  | Some v => if Js.truthy d then toLocaleDateString_enGB rt v else ""
  | None => ""
  end.

Definition fmtMonth (d : string) : string :=
  if Js.truthy (Some d) then toLocaleMonthYear_enUS rt d else "".

Definition getUserName (p : ListProps) (i : string) : string :=
  match List.find (fun q => String.eqb (profile_id q) i) (profiles p) with
  | Some q => Js.or_else (Some (full_name q)) i
  | None => i
  end.

Definition with_freelancer (p : ListProps) (s : ListState) : bool :=
  allowUserFilter p || match viewMode s with Team => true | Personal => false end.

Definition entry_row (p : ListProps) (s : ListState) (e : CommissionEntry) : row :=
  app
  (if with_freelancer p s
   then [("Freelancer", CText (getUserName p (user_id e)))] else [])
  [ ("Invoice Number", CText (invoice_number e));
    ("Receipt Number", CText (Js.or_else (receipt_number e) ""));
    ("Customer", CText (customer e));
    ("Project", CText (project e));
    ("Amount Before VAT", CNumber (amount_before_vat e));
    ("Cost Before VAT", CNumber (cost_before_vat e));
    ("Commission Rate (%)", CNumber (commission_rate e));
    ("Net Total", CNumber (net_total e));
    ("Net to Pay", CNumber (net_to_pay e));
    ("Tax", CNumber (tax e));
    ("Invoice Month", CText (fmtMonth (invoice_month e)));
    ("Client Paid Date", CText (fmtDate (client_paid_date e)));
    ("Status", CText (status_string (commission_status e)));
    ("Company Paid Date", CText (fmtDate (company_paid_date e)));
    ("Note", CText (Js.or_else (note e) "")) ].

Definition totalsRow (p : ListProps) (s : ListState)
  (view : list CommissionEntry) : row :=
  app
  (if with_freelancer p s then [("Freelancer", CText "")] else [])
  [ ("Invoice Number", CText "TOTALS");
    ("Receipt Number", CText "");
    ("Customer", CText "");
    ("Project", CText "");
    ("Amount Before VAT", CNumber (sum_of amount_before_vat view));
    ("Cost Before VAT", CNumber (sum_of cost_before_vat view));
    ("Commission Rate (%)", CText "");
    ("Net Total", CNumber (sum_of net_total view));
    ("Net to Pay", CNumber (sum_of net_to_pay view));
    ("Tax", CNumber (sum_of tax view));
    ("Invoice Month", CText "");
    ("Client Paid Date", CText "");
    ("Status", CText "");
    ("Company Paid Date", CText "");
    ("Note", CText "") ].

(** [data]: the mapped entries, then [data.push(totalsRow)]. *)
Definition export_data (p : ListProps) (s : ListState)
  (view : list CommissionEntry) : list row :=
  app (map (entry_row p s) view) [totalsRow p s view].

(** [Object.keys(data[0]).map(k => ({ wch: Math.max(k.length, 12) + 2 }))] *)
Definition column_widths (data : list row) : list Z :=
  match data with
  | first :: _ =>
      map (fun kc => Z.max (Z.of_nat (String.length (fst kc))) 12 + 2) first
  | [] => []
  end.

Definition export_filename (s : ListState) : string :=
  if Js.truthy (Some (monthFilter s))
  then "Commissions_" ++ monthFilter s ++ ".xlsx"
  else "Commissions_Export.xlsx".

(** [handleExport]: what it does besides returning; it updates no state of
    the component and calls no callback of the parent. *)
Definition handleExport (p : ListProps) (s : ListState) : ExportResult :=
  let view := filteredEntries p s in
  let n := Z.of_nat (length view) in
  if n =? 0 then NoExport
  else if n >? 5000 then ExportRefused export_limit_alert
  else
    let data := export_data p s view in
    WriteFile (export_filename s) "Commissions" data (column_widths data).

End ListView.

(** ** InvoiceReview: mapping extracted records to drafts *)

(** Approximate exchange rates for demo purposes.  The object is read at
    upper-cased codes only, which name none of the properties an object
    inherits, so reading it is a lookup in this table. *)
Definition EXCHANGE_RATES : gmap string float :=
  list_to_map
    [ ("USD", 34.5); ("EUR", 37.5); ("GBP", 43.8); ("JPY", 0.23);
      ("AUD", 22.5); ("SGD", 25.6); ("CNY", 4.8); ("THB", 1) ]%float.

(** One record returned by the extraction service; every property may be
    missing. *)
Record RawInvoice : Type := mkRaw {
  raw_invoice_number : option string;
  raw_receipt_number : option string;
  raw_customer : option string;
  raw_amount_before_vat : option float;
  raw_currency_code : option string;
  raw_invoice_date : option string;
  raw_project_description : option string
}.

Record ConversionInfo : Type := mkConversion {
  originalCurrency : string;
  originalAmount : float;
  rate : float
}.

(** One editable line of the review view.  [item_cost_before_vat = None] is
    the blank input ['']. *)
Record DraftItem : Type := mkDraft {
  item_invoice_number : string;
  item_receipt_number : option string;
  item_customer : string;
  item_amount_before_vat : float;
  item_project : string;
  item_invoice_month : string;
  item_client_paid_date : option string;
  item_commission_rate : float;
  item_cost_before_vat : option float;
  item_tax : float;
  conversionInfo : option ConversionInfo
}.

(** The currency step of the mapping: the draft amount and the conversion
    record kept for display. *)
Definition convert_amount (rt : Runtime) (item : RawInvoice)
  : float * option ConversionInfo :=
  let amount := number_or (raw_amount_before_vat item) 0%float in
  let currencyCode := toUpperCase rt (Js.or_else (raw_currency_code item) "THB") in
  if negb (String.eqb currencyCode "THB") && PrimFloat.ltb 0 amount then
    match EXCHANGE_RATES !! currencyCode with
    | Some r =>
        if Js.truthy_num r then
          (Js.toFixed2 (amount * r)%float,
           Some {| originalCurrency := currencyCode;
                   originalAmount := amount;
                   rate := r |})
        else (amount, None)
    | None => (amount, None)
    end
  else (amount, None).

Section Mapping.

Variable rt : Runtime.

(** [new Date().toISOString()], and [new Date(s).toISOString()] when [s]
    parses to a valid date. *)
Variable now_iso : string.
Variable parse_iso : string -> option string.

Definition first_of_month (iso : string) : string :=
  String.substring 0 8 iso ++ "01".

Definition map_item (u : Profile) (item : RawInvoice) : DraftItem :=
  let dateStr :=
    match raw_invoice_date item with
    | Some d =>
        if Js.truthy (Some d) then
          match parse_iso d with
          | Some iso => first_of_month iso
          | None => first_of_month now_iso
          end
        else first_of_month now_iso
    | None => first_of_month now_iso
    end in
  let rawDate := Js.or_else (raw_invoice_date item) (String.substring 0 10 now_iso) in
  let conv := convert_amount rt item in
  {| item_invoice_number := Js.or_else (raw_invoice_number item) "";
     item_receipt_number :=
       if Js.truthy (raw_receipt_number item) then raw_receipt_number item else None;
     item_customer := Js.or_else (raw_customer item) "";
     item_amount_before_vat := fst conv;
     item_project := Js.or_else (raw_project_description item) "";
     item_invoice_month := dateStr;
     item_client_paid_date :=
       if Js.truthy (raw_receipt_number item) then Some rawDate else None;
     item_commission_rate := default_commission_rate u;
     item_cost_before_vat := None;
     item_tax := 0%float;
     conversionInfo := snd conv |}.

(** [dataArray.map(item => ...)] *)
Definition map_items (u : Profile) (initialData : list RawInvoice) : list DraftItem :=
  map (map_item u) initialData.

End Mapping.

(** ** InvoiceReview: the save gates *)

Inductive ModalType : Type := cost_empty | duplicate.

Record ModalConfig : Type := mkModal {
  isOpen : bool;
  modal_type : ModalType;
  index : nat;
  message : string;
  primaryAction : string;
  secondaryAction : string
}.

Record ReviewProps : Type := mkReviewProps {
  review_user : Profile;
  review_file_name : option string;              (* [file?.name] *)
  existingCommissions : list CommissionEntry
}.

Record ReviewState : Type := mkReviewState {
  items : list DraftItem;
  savedIds : gset nat;
  modalConfig : option ModalConfig;
  showToast : bool
}.

Definition set_modalConfig (s : ReviewState) (m : option ModalConfig) : ReviewState :=
  {| items := items s;
     savedIds := savedIds s;
     modalConfig := m;
     showToast := showToast s |}.

Definition with_cost (it : DraftItem) (c : option float) : DraftItem :=
  {| item_invoice_number := item_invoice_number it;
     item_receipt_number := item_receipt_number it;
     item_customer := item_customer it;
     item_amount_before_vat := item_amount_before_vat it;
     item_project := item_project it;
     item_invoice_month := item_invoice_month it;
     item_client_paid_date := item_client_paid_date it;
     item_commission_rate := item_commission_rate it;
     item_cost_before_vat := c;
     item_tax := item_tax it;
     conversionInfo := conversionInfo it |}.

(** [c.invoice_number.toLowerCase() === item.invoice_number.toLowerCase()
    && c.user_id === user.id], for some existing [c]. *)
Definition isDuplicate (rt : Runtime) (p : ReviewProps) (it : DraftItem) : bool :=
  existsb
    (fun c =>
       String.eqb (toLowerCase rt (invoice_number c))
                  (toLowerCase rt (item_invoice_number it))
       && String.eqb (user_id c) (profile_id (review_user p)))
    (existingCommissions p).

(** The entry [finalizeSave] hands to [onSave]. *)
Definition draft_entry (p : ReviewProps) (uuid : string) (it : DraftItem)
  : CommissionEntry :=
  let cost := match item_cost_before_vat it with Some c => c | None => 0%float end in
  let amount := item_amount_before_vat it in
  let r := item_commission_rate it in
  let netTotal := netTotal_of amount cost in
  let netToPay := netToPay_of netTotal r in
  {| id := uuid;
     user_id := profile_id (review_user p);
     invoice_number := item_invoice_number it;
     receipt_number :=
       if Js.truthy (item_receipt_number it) then item_receipt_number it else None;
     customer := item_customer it;
     project := item_project it;
     amount_before_vat := amount;
     cost_before_vat := cost;
     commission_rate := r;
     tax := item_tax it;
     net_total := netTotal;
     net_to_pay := netToPay;
     invoice_month := item_invoice_month it;
     client_paid_date := item_client_paid_date it;
     commission_status :=
       if Js.truthy (item_client_paid_date it) then ELIGIBLE else UNPAID;
     company_paid_date := None;
     note := None;
     file_name := review_file_name p |}.

(** [finalizeSave].  A handler of the review view returns the next state and
    the argument of [onSave], when it is called.  An index outside [items]
    (which the view never produces) changes nothing. *)
Definition finalizeSave (p : ReviewProps) (s : ReviewState) (uuid : string)
  (i : nat) : ReviewState * option CommissionEntry :=
  match items s !! i with
  | None => (s, None)
  | Some it =>
      ({| items :=
            match item_cost_before_vat it with
            | None => <[i := with_cost it (Some 0%float)]> (items s)
            | Some _ => items s
            end;
          savedIds := {[ i ]} ∪ savedIds s;
          modalConfig := None;
          showToast := true |},
       Some (draft_entry p uuid it))
  end.

Definition duplicate_message (inv : string) : string :=
  "Invoice " ++ inv ++ " already exists. Add anyway?".

(** The modal [proceedWithDuplicateCheck] opens for item [i]. *)
Definition duplicate_modal (i : nat) (it : DraftItem) : ModalConfig :=
  {| isOpen := true;
     modal_type := duplicate;
     index := i;
     message := duplicate_message (item_invoice_number it);
     primaryAction := "Add Duplicate";
     secondaryAction := "Cancel" |}.

(** [proceedWithDuplicateCheck] *)
Definition proceedWithDuplicateCheck (rt : Runtime) (p : ReviewProps)
  (s : ReviewState) (uuid : string) (i : nat)
  : ReviewState * option CommissionEntry :=
  match items s !! i with
  | None => (s, None)
  | Some it =>
      if isDuplicate rt p it then
        (set_modalConfig s (Some (duplicate_modal i it)), None)
      else finalizeSave p s uuid i
  end.

(** [handleSaveClick] *)
Definition handleSaveClick (rt : Runtime) (p : ReviewProps) (s : ReviewState)
  (uuid : string) (i : nat) : ReviewState * option CommissionEntry :=
  match items s !! i with
  | None => (s, None)
  | Some it =>
      match item_cost_before_vat it with
      | None =>
          (set_modalConfig s
             (Some {| isOpen := true;
                      modal_type := cost_empty;
                      index := i;
                      message := "Cost before VAT is empty. Set to 0?";
                      primaryAction := "Yes, set to 0";
                      secondaryAction := "Cancel" |}),
           None)
      | Some _ => proceedWithDuplicateCheck rt p s uuid i
      end
  end.

(** [handleModalConfirm], the primary button of the modal. *)
Definition handleModalConfirm (rt : Runtime) (p : ReviewProps) (s : ReviewState)
  (uuid : string) : ReviewState * option CommissionEntry :=
  match modalConfig s with
  | None => (s, None)
  | Some m =>
      match modal_type m with
      | cost_empty =>
          proceedWithDuplicateCheck rt p (set_modalConfig s None) uuid (index m)
      | duplicate => finalizeSave p s uuid (index m)
      end
  end.

(** The secondary button of the modal: [setModalConfig(null)]. *)
Definition handleModalCancel (s : ReviewState) : ReviewState * option CommissionEntry :=
  (set_modalConfig s None, None).

(** What the collection becomes when the parent runs [onSave]. *)
Definition after_save (r : ReviewState * option CommissionEntry)
  (commissions : list CommissionEntry) : list CommissionEntry :=
  match snd r with
  | Some e => handleSaveCommission e commissions
  | None => commissions
  end.

(** ** InvoiceUpload: the upload queue *)

Record File : Type := mkFile {
  name : string;
  type : string
}.

Inductive UploadStatus : Type := uploading | parsing | ready | error.

Record UploadItem : Type := mkUploadItem {
  upload_id : string;
  file : File;
  status : UploadStatus;
  progress : Z;
  extractedData : option RawInvoice;
  errorMessage : option string
}.

Definition is_pdf (f : File) : bool := String.eqb (type f) "application/pdf".

Definition only_pdf_alert : string := "Only PDF files are supported.".

(** The outcome of one call of [processFiles]: the queue after
    [setQueue(prev => [...prev, ...newItems])], the items whose pipeline is
    started, and the alert, if one is shown. *)
Record Processed : Type := mkProcessed {
  queue_after : list UploadItem;
  newItems : list UploadItem;
  alerted : option string
}.

(** [processFiles].  [randomUUID k] is the identifier drawn for the [k]-th
    item created by the call. *)
Definition processFiles (randomUUID : nat -> string) (queue : list UploadItem)
  (files : list File) : Processed :=
  let created :=
    imap
      (fun k f => {| upload_id := randomUUID k;
                     file := f;
                     status := uploading;
                     progress := 0;
                     extractedData := None;
                     errorMessage := None |})
      (List.filter is_pdf (Js.slice0 (5 - Z.of_nat (length queue)) files)) in
  match created with
  | [] =>
      {| queue_after := queue;
         newItems := [];
         alerted :=
           if existsb (fun f => negb (is_pdf f)) files
           then Some only_pdf_alert else None |}
  | _ :: _ =>
      {| queue_after := app queue created;
         newItems := created;
         alerted := None |}
  end.

(** [removeQueueItem] *)
Definition removeQueueItem (i : string) (queue : list UploadItem) : list UploadItem :=
  List.filter (fun it => negb (String.eqb (upload_id it) i)) queue.

(** [setQueue(prev => prev.map(q => q.id === id ? f(q) : q))], the shape of
    every progress, status and retry update. *)
Definition updateQueueItem (i : string) (f : UploadItem -> UploadItem)
  (queue : list UploadItem) : list UploadItem :=
  map (fun q => if String.eqb (upload_id q) i then f q else q) queue.

(** The queues the component can hold, from the empty queue it starts with. *)
Inductive queue_reachable : list UploadItem -> Prop :=
| reach_initial : queue_reachable []
| reach_process randomUUID queue files :
    queue_reachable queue ->
    queue_reachable (queue_after (processFiles randomUUID queue files))
| reach_remove i queue :
    queue_reachable queue -> queue_reachable (removeQueueItem i queue)
| reach_update i f queue :
    queue_reachable queue -> queue_reachable (updateQueueItem i f queue).

(** ** Running a handler against scripted answers *)

Inductive answer : Type :=
| Click (ok : bool)                 (* the answer to [window.confirm] *)
| Typed (text : option string).     (* the answer to [window.prompt] *)

Fixpoint run {A : Type} (t : ui A) (answers : list answer) : option A :=
  match t with
  | Ret a => Some a
  | Alert _ k => run k answers
  | Confirm _ k =>
      match answers with
      | Click b :: rest => run (k b) rest
      | _ => None
      end
  | Prompt _ _ k =>
      match answers with
      | Typed r :: rest => run (k r) rest
      | _ => None
      end
  end.

(** ** The mutations of the collection *)

(** The value an edit writes into its field. *)
Definition edit_value (ed : edit) : Js.value :=
  match ed with
  | EditText _ s => Js.VString s
  | EditNumber _ q => Js.VNumber q
  | EditStatus st => Js.VString (status_string st)
  end.

(** One create or update of the collection held by [App]: the manual-add
    form (of the commissions view, whose [onAdd] is [handleAddCommission],
    or of the admin panel, whose [onAdd] does nothing), a save of the review
    view (directly or through its modal), or an inline edit of the table. *)
Inductive mutation (commissions : list CommissionEntry)
  : list CommissionEntry -> Prop :=
| mut_manual_add rt p s uuid r :
    onAdd p = handleAddCommission \/ onAdd p = ignore_add ->
    outcome (handleAddSubmit rt p s uuid) r ->
    mutation commissions (after_add p r commissions)
| mut_review_save rt p s uuid i :
    mutation commissions (after_save (handleSaveClick rt p s uuid i) commissions)
| mut_review_confirm rt p s uuid :
    mutation commissions (after_save (handleModalConfirm rt p s uuid) commissions)
| mut_inline_edit rt p s today i ed r :
    outcome (handleInlineUpdate rt p s today i ed) r ->
    mutation commissions (after_update r commissions).

(** ** Seed data of [App] *)

Definition alice : Profile :=
  {| profile_id := "user-admin";
     email := "admin@base44.com";
     full_name := "Admin Alice";
     role := ADMIN;
     team_id := Some "team-2";
     default_commission_rate := 5%float |}.

Definition bob : Profile :=
  {| profile_id := "user-manager";
     email := "manager@base44.com";
     full_name := "Manager Bob";
     role := MANAGER;
     team_id := Some "team-1";
     default_commission_rate := 5%float |}.

Definition alex : Profile :=
  {| profile_id := "user-1";
     email := "freelancer@base44.com";
     full_name := "Alex Freelancer";
     role := USER;
     team_id := Some "team-1";
     default_commission_rate := 5%float |}.

Definition sarah : Profile :=
  {| profile_id := "user-2";
     email := "designer@base44.com";
     full_name := "Sarah Designer";
     role := USER;
     team_id := Some "team-1";
     default_commission_rate := 5%float |}.

Definition MOCK_PROFILES : list Profile := [alice; bob; alex; sarah].

Definition mock_1 : CommissionEntry :=
  {| id := "1"; user_id := "user-1";
     invoice_number := "INV-2023-001"; receipt_number := Some "TI20230099";
     customer := "Acme Corp"; project := "Website Redesign";
     amount_before_vat := 5000%float; cost_before_vat := 500%float;
     commission_rate := 5%float; tax := 0%float;
     net_total := 4500%float; net_to_pay := 225%float;
     invoice_month := "2023-10-01"; client_paid_date := Some "2023-10-15";
     commission_status := PAID; company_paid_date := None;
     note := Some "Initial deposit"; file_name := Some "invoice_001.pdf" |}.

Definition mock_2 : CommissionEntry :=
  {| id := "2"; user_id := "user-1";
     invoice_number := "INV-2023-005"; receipt_number := None;
     customer := "Stark Industries"; project := "Security Audit";
     amount_before_vat := 12000%float; cost_before_vat := 0%float;
     commission_rate := 5%float; tax := 0%float;
     net_total := 12000%float; net_to_pay := 600%float;
     invoice_month := "2023-11-15"; client_paid_date := None;
     commission_status := ELIGIBLE; company_paid_date := None;
     note := None; file_name := Some "stark_inv.pdf" |}.

Definition mock_3 : CommissionEntry :=
  {| id := "3"; user_id := "user-2";
     invoice_number := "INV-2023-999"; receipt_number := None;
     customer := "Wayne Enterprises"; project := "Logo Design";
     amount_before_vat := 8000%float; cost_before_vat := 0%float;
     commission_rate := 5%float; tax := 0%float;
     net_total := 8000%float; net_to_pay := 400%float;
     invoice_month := "2023-11-20"; client_paid_date := None;
     commission_status := UNPAID; company_paid_date := None;
     note := None; file_name := None |}.

Definition MOCK_ENTRIES : list CommissionEntry := [mock_1; mock_2; mock_3].

(** [myCommissions]: [commissions.filter(c => c.user_id === user?.id)] *)
Definition myCommissions (u : Profile) (commissions : list CommissionEntry)
  : list CommissionEntry :=
  List.filter (fun c => String.eqb (user_id c) (profile_id u)) commissions.

(** The props [App] gives the commissions view of a user who is not a
    manager: the user's own entries, no team entries, every profile. *)
Definition commissions_view (u : Profile) (commissions : list CommissionEntry)
  : ListProps :=
  {| user := u;
     entries := myCommissions u commissions;
     teamEntries := [];
     profiles := MOCK_PROFILES;
     allowUserFilter := false;
     readOnly := false;
     onAdd := handleAddCommission |}.

(** The state [CommissionList] mounts with. *)
Definition initial_list_state (u : Profile) : ListState :=
  {| searchTerm := "";
     statusFilter := None;
     monthFilter := "";
     userFilter := None;
     sortConfig := None;
     viewMode := Personal;
     isAddModalOpen := false;
     newEntry := blank_entry u;
     invalidFields := ∅ |}.

(** The seed collection after the rate of entry 2 is edited inline to 7. *)
Definition seed_after_rate_edit : list CommissionEntry :=
  after_update
    (set_invalidFields (initial_list_state alex)
       (<[invalid_key "2" F_commission_rate := false]> ∅),
     Some (apply_edit mock_2 (EditNumber N_commission_rate 7)))
    MOCK_ENTRIES.

(** The seed collection after the cost of entry 2 is edited inline to 2000:
    its totals become 10000 and 500. *)
Definition seed_after_cost_edit : list CommissionEntry :=
  after_update
    (set_invalidFields (initial_list_state alex)
       (<[invalid_key "2" F_cost_before_vat := false]> ∅),
     Some (apply_edit mock_2 (EditNumber N_cost_before_vat 2000)))
    MOCK_ENTRIES.




(** The review of [duplicate_draft] by [alex] over the seed collection, with
    the duplicate modal open on it. *)
Definition review_props : ReviewProps :=
  {| review_user := alex;
     review_file_name := Some "stark_copy.pdf";
     existingCommissions := MOCK_ENTRIES |}.


(** Six dropped files, the second of which is not a PDF. *)
Definition dropped_files : list File :=
  [ mkFile "a.pdf" "application/pdf"; mkFile "b.png" "image/png";
    mkFile "c.pdf" "application/pdf"; mkFile "d.pdf" "application/pdf";
    mkFile "e.pdf" "application/pdf"; mkFile "f.pdf" "application/pdf" ].

(** ** CommissionList: totals and deletion *)

(** The accumulator of the [totals] memo. *)
Record Totals : Type := mkTotals {
  total : float;
  unpaid : float;
  eligible : float;
  paid : float
}.

(** [totals]: one pass of [reduce] over the filtered view. *)
Definition totals (view : list CommissionEntry) : Totals :=
  fold_left
    (fun acc curr =>
       {| total := (total acc + net_to_pay curr)%float;
          unpaid :=
            (unpaid acc +
             (if status_eqb (commission_status curr) UNPAID
              then net_to_pay curr else 0))%float;
          eligible :=
            (eligible acc +
             (if status_eqb (commission_status curr) ELIGIBLE
              then net_to_pay curr else 0))%float;
          paid :=
            (paid acc +
             (if status_eqb (commission_status curr) PAID
              then net_to_pay curr else 0))%float |})
    view {| total := 0; unpaid := 0; eligible := 0; paid := 0 |}.

Definition delete_confirm : string :=
  "Delete this commission entry? This cannot be undone.".

(** [handleDeleteClick]: the result is the argument of [onDelete], when it is
    called. *)
Definition handleDeleteClick (p : ListProps) (s : ListState) (i : string)
  : ui (option string) :=
  if isViewReadOnly p s then Ret None
  else Confirm delete_confirm (fun ok => if ok then Ret (Some i) else Ret None).

(** What the collection becomes when the parent runs [onDelete]. *)
Definition after_delete (r : option string)
  (commissions : list CommissionEntry) : list CommissionEntry :=
  match r with
  | Some i => handleDeleteCommission i commissions
  | None => commissions
  end.

(** ** App: team view, profiles and the reachable collections *)

Definition option_string_eqb (a b : option string) : bool :=
  match a, b with
  | Some x, Some y => String.eqb x y
  | None, None => true
  | _, _ => false
  end.

(** [teamCommissions]: empty unless the user is a manager with a team;
    otherwise the entries of the other members of that team. *)
Definition teamCommissions (u : Profile) (all_profiles : list Profile)
  (commissions : list CommissionEntry) : list CommissionEntry :=
  if negb (role_eqb (role u) MANAGER) || negb (Js.truthy (team_id u)) then []
  else
    let teamMemberIds :=
      map profile_id
        (List.filter
           (fun q => option_string_eqb (team_id q) (team_id u)
                     && negb (String.eqb (profile_id q) (profile_id u)))
           all_profiles) in
    List.filter
      (fun c => existsb (String.eqb (user_id c)) teamMemberIds) commissions.

(** The props [App] gives the commissions view. *)
Definition app_list_props (u : Profile) (all_profiles : list Profile)
  (commissions : list CommissionEntry) : ListProps :=
  {| user := u;
     entries := myCommissions u commissions;
     teamEntries := teamCommissions u all_profiles commissions;
     profiles := all_profiles;
     allowUserFilter := false;
     readOnly := false;
     onAdd := handleAddCommission |}.





(** The collections [App] can hold, starting from the seed data: every
    create, update and delete of an entry. *)
Inductive collection_reachable : list CommissionEntry -> Prop :=
| reach_seed : collection_reachable MOCK_ENTRIES
| reach_mutation cs cs' :
    collection_reachable cs -> mutation cs cs' -> collection_reachable cs'
| reach_delete r cs :
    collection_reachable cs -> collection_reachable (after_delete r cs).

(** ** Dashboard *)

Module Dashboard.

Record DateRange : Type := mkRange {
  range_start : string;
  range_end : string
}.

(** [e.invoice_month >= dateRange.start && e.invoice_month <= dateRange.end],
    on strings. *)
Definition in_range (r : DateRange) (e : CommissionEntry) : bool :=
  String.leb (range_start r) (invoice_month e)
  && String.leb (invoice_month e) (range_end r).

Definition filteredEntries (entries : list CommissionEntry) (r : DateRange)
  : list CommissionEntry :=
  List.filter (in_range r) entries.

Record Kpi : Type := mkKpi {
  amount : float;
  count : Z
}.

Record Summary : Type := mkSummary {
  total : Kpi;
  unpaid : Kpi;
  eligible : Kpi;
  paid : Kpi
}.

Definition bump (k : Kpi) (e : CommissionEntry) : Kpi :=
  {| amount := (amount k + net_to_pay e)%float; count := count k + 1 |}.

(** [kpiData]: the [forEach] over the filtered entries. *)
Definition kpiData (filtered : list CommissionEntry) : Summary :=
  fold_left
    (fun summary e =>
       {| total := bump (total summary) e;
          unpaid :=
            match commission_status e with
            | UNPAID => bump (unpaid summary) e
            | _ => unpaid summary
            end;
          eligible :=
            match commission_status e with
            | ELIGIBLE => bump (eligible summary) e
            | _ => eligible summary
            end;
          paid :=
            match commission_status e with
            | PAID => bump (paid summary) e
            | _ => paid summary
            end |})
    filtered
    {| total := mkKpi 0 0; unpaid := mkKpi 0 0;
       eligible := mkKpi 0 0; paid := mkKpi 0 0 |}.

Record Slice : Type := mkSlice {
  slice_name : string;
  slice_value : float;
  slice_color : string
}.

(** [statusData]: the slices of the status chart, without the empty ones. *)
Definition statusData (k : Summary) : list Slice :=
  List.filter (fun d => PrimFloat.ltb 0 (slice_value d))
    [ mkSlice "Paid" (amount (paid k)) "#10b981";
      mkSlice "Eligible" (amount (eligible k)) "#3b82f6";
      mkSlice "Unpaid" (amount (unpaid k)) "#f59e0b" ].

End Dashboard.

(** ** InvoiceUpload: retry *)

(** [{ ...q, status: 'uploading', progress: 0, errorMessage: undefined }] *)
Definition reset_item (q : UploadItem) : UploadItem :=
  {| upload_id := upload_id q;
     file := file q;
     status := uploading;
     progress := 0;
     extractedData := extractedData q;
     errorMessage := None |}.

(** [retryItem]: the queue after it and the item whose pipeline is
    restarted, if the identifier is in the queue. *)
Definition retryItem (i : string) (queue : list UploadItem)
  : list UploadItem * option UploadItem :=
  match List.find (fun it => String.eqb (upload_id it) i) queue with
  | Some item => (updateQueueItem i reset_item queue, Some item)
  | None => (queue, None)
  end.

(** ** InvoiceReview: edits of a draft and the finish button *)

(** [handleChange(index, 'cost_before_vat', value)], with [None] for the
    blank input. *)
Definition handleChange_cost (s : ReviewState) (i : nat) (c : option float)
  : ReviewState :=
  match items s !! i with
  | Some it =>
      {| items := <[i := with_cost it c]> (items s);
         savedIds := savedIds s;
         modalConfig := modalConfig s;
         showToast := showToast s |}
  | None => s
  end.

(** [allSaved] *)
Definition allSaved (s : ReviewState) : bool :=
  negb (Nat.eqb (length (items s)) 0)
  && Nat.eqb (length (items s)) (size (savedIds s)).

(** The state the review view mounts with for the mapped [drafts]. *)
Definition initial_review_state (drafts : list DraftItem) : ReviewState :=
  {| items := drafts; savedIds := ∅; modalConfig := None; showToast := false |}.

(** The other direction. *)
Definition opposite (d : direction) : direction :=
  match d with Asc => Desc | Desc => Asc end.

(** The state of the list after a manager switches to the team view. *)
Definition team_list_state (u : Profile) : ListState :=
  {| searchTerm := "";
     statusFilter := None;
     monthFilter := "";
     userFilter := None;
     sortConfig := None;
     viewMode := Team;
     isAddModalOpen := false;
     newEntry := blank_entry u;
     invalidFields := ∅ |}.


(** An extracted receipt in the local currency, and the review of it that
    [alex] starts on 10 December 2023. *)
Definition receipt_raw : RawInvoice :=
  {| raw_invoice_number := Some "INV-2023-888";
     raw_receipt_number := Some "TI20231264";
     raw_customer := Some "Initech";
     raw_amount_before_vat := Some 2000%float;
     raw_currency_code := Some "THB";
     raw_invoice_date := Some "2023-11-28";
     raw_project_description := Some "Audit" |}.

Definition december_10 : string := "2023-12-10T08:00:00.000Z".

Definition parse_day (d : string) : option string := Some (d ++ "T00:00:00.000Z").

Definition receipt_draft : DraftItem :=
  map_item ascii_runtime december_10 parse_day alex receipt_raw.

Definition receipt_review : ReviewState :=
  initial_review_state
    (map_items ascii_runtime december_10 parse_day alex [receipt_raw]).

(** A queue filled by one drop of five PDFs. *)
Definition five_pdfs : list File :=
  [ mkFile "1.pdf" "application/pdf"; mkFile "2.pdf" "application/pdf";
    mkFile "3.pdf" "application/pdf"; mkFile "4.pdf" "application/pdf";
    mkFile "5.pdf" "application/pdf" ].

Definition numbered_uuid (k : nat) : string :=
  String (ascii_of_nat (48 + k)) EmptyString.

Definition full_queue : list UploadItem :=
  queue_after (processFiles numbered_uuid [] five_pdfs).

(** The state of a list with the search, status and month filters of the
    toolbar set and the table sorted by net to pay, largest first. *)
Definition filtered_list_state (u : Profile) : ListState :=
  {| searchTerm := "STARK";
     statusFilter := Some ELIGIBLE;
     monthFilter := "2023-11";
     userFilter := None;
     sortConfig := Some {| key := F_net_to_pay; sort_direction := Desc |};
     viewMode := Personal;
     isAddModalOpen := false;
     newEntry := blank_entry u;
     invalidFields := ∅ |}.

(** The same state without the filters. *)
Definition sorted_list_state (u : Profile) : ListState :=
  {| searchTerm := "";
     statusFilter := None;
     monthFilter := "";
     userFilter := None;
     sortConfig := Some {| key := F_net_to_pay; sort_direction := Desc |};
     viewMode := Personal;
     isAddModalOpen := false;
     newEntry := blank_entry u;
     invalidFields := ∅ |}.

(** Three entries of 10 units at the rates 3, 2 and 1, one of each status,
    with their derived fields as [recalculate] computes them. *)
Definition small_entry (i : string) (r : float) (st : CommissionStatus)
  : CommissionEntry :=
  recalculate
    {| id := i; user_id := "user-1";
       invoice_number := "INV-2024-" ++ i; receipt_number := None;
       customer := "Acme Corp"; project := "Hosting";
       amount_before_vat := 10%float; cost_before_vat := 0%float;
       commission_rate := r; tax := 0%float;
       net_total := 0%float; net_to_pay := 0%float;
       invoice_month := "2024-01-01"; client_paid_date := None;
       commission_status := st; company_paid_date := None;
       note := None; file_name := None |}.

Definition small_entries : list CommissionEntry :=
  [ small_entry "7" 3 PAID; small_entry "8" 2 ELIGIBLE; small_entry "9" 1 UNPAID ].

(** ** Properties *)

(** *** Calculation rules *)

Lemma derived_ok_recalculate (e : CommissionEntry) : derived_ok (recalculate e).
Proof. split; reflexivity. Qed.

Lemma derived_ok_build_entry p n uuid inv amount month :
  derived_ok (build_entry p n uuid inv amount month).
Proof. split; reflexivity. Qed.

Lemma derived_ok_draft_entry p uuid it : derived_ok (draft_entry p uuid it).
Proof. split; reflexivity. Qed.

Lemma derived_ok_MOCK_ENTRIES : Forall derived_ok MOCK_ENTRIES.
Proof.
  unfold MOCK_ENTRIES, derived_ok.
  repeat constructor; reflexivity.
Qed.

Lemma outcome_Ret {A : Type} (a r : A) : outcome (Ret a) r -> r = a.
Proof. intros H. inversion H. reflexivity. Qed.

Lemma handleAddSubmit_outcome rt p s uuid r :
  outcome (handleAddSubmit rt p s uuid) r ->
  snd r = None \/
  exists inv amount month,
    snd r = Some (build_entry p (newEntry s) uuid inv amount month).
Proof.
  unfold handleAddSubmit.
  destruct (new_invoice_number (newEntry s)) as [inv|];
    destruct (new_amount_before_vat (newEntry s)) as [amount|];
    destruct (new_invoice_month (newEntry s)) as [month|];
    try (intros H; inversion H; subst;
         match goal with H' : outcome (Ret _) _ |- _ => inversion H'; subst end;
         now left).
  destruct (_ || _ || _).
  - intros H; inversion H; subst.
    match goal with H' : outcome (Ret _) _ |- _ => inversion H'; subst end.
    now left.
  - destruct (has_duplicate _ _ _); intros H; inversion H; subst.
    + match goal with b : bool |- _ => destruct b end;
        match goal with H' : outcome (Ret _) _ |- _ => inversion H'; subst end.
      * right; eauto.
      * now left.
    + right; eauto.
Qed.

Lemma finalizeSave_entry p s uuid i :
  snd (finalizeSave p s uuid i) = None \/
  exists it, snd (finalizeSave p s uuid i) = Some (draft_entry p uuid it).
Proof.
  unfold finalizeSave. destruct (items s !! i); simpl; eauto.
Qed.

Lemma proceedWithDuplicateCheck_entry rt p s uuid i :
  snd (proceedWithDuplicateCheck rt p s uuid i) = None \/
  exists it,
    snd (proceedWithDuplicateCheck rt p s uuid i) = Some (draft_entry p uuid it).
Proof.
  unfold proceedWithDuplicateCheck.
  destruct (items s !! i) as [it|] eqn:E; simpl; eauto.
  destruct (isDuplicate rt p it); simpl; eauto.
  apply finalizeSave_entry.
Qed.

Lemma handleSaveClick_entry rt p s uuid i :
  snd (handleSaveClick rt p s uuid i) = None \/
  exists it, snd (handleSaveClick rt p s uuid i) = Some (draft_entry p uuid it).
Proof.
  unfold handleSaveClick.
  destruct (items s !! i) as [it|]; simpl; eauto.
  destruct (item_cost_before_vat it); simpl; eauto.
  apply proceedWithDuplicateCheck_entry.
Qed.

Lemma handleModalConfirm_entry rt p s uuid :
  snd (handleModalConfirm rt p s uuid) = None \/
  exists it, snd (handleModalConfirm rt p s uuid) = Some (draft_entry p uuid it).
Proof.
  unfold handleModalConfirm.
  destruct (modalConfig s) as [m|]; simpl; eauto.
  destruct (modal_type m).
  - apply proceedWithDuplicateCheck_entry.
  - apply finalizeSave_entry.
Qed.

Lemma handleUpdateCommission_entries u cs e :
  In e (handleUpdateCommission u cs) -> In e cs \/ e = recalculate u.
Proof.
  unfold handleUpdateCommission. rewrite in_map_iff.
  intros (c & Hc & Hin).
  destruct (String.eqb (id c) (id (recalculate u))); subst; auto.
Qed.

(** Every entry of the collection after a mutation is either an entry that
    was there before, untouched, or an entry whose derived fields have just
    been computed from its amount, cost and rate. *)
Lemma mutation_entries cs cs' e :
  mutation cs cs' -> In e cs' -> In e cs \/ derived_ok e.
Proof.
  intros Hm Hin.
  destruct Hm as [rt p s uuid r Hadd Hr | rt p s uuid i | rt p s uuid
                 | rt p s today i ed r Hr].
  - unfold after_add in Hin.
    destruct (handleAddSubmit_outcome _ _ _ _ _ Hr) as [E | (inv & a & m & E)];
      rewrite E in Hin; auto.
    destruct Hadd as [Hadd | Hadd]; rewrite Hadd in Hin; auto.
    destruct Hin as [<- | Hin]; auto.
    right; apply derived_ok_build_entry.
  - unfold after_save in Hin.
    destruct (handleSaveClick_entry rt p s uuid i) as [E | (it & E)];
      rewrite E in Hin; auto.
    destruct Hin as [<- | Hin]; auto.
    right; apply derived_ok_draft_entry.
  - unfold after_save in Hin.
    destruct (handleModalConfirm_entry rt p s uuid) as [E | (it & E)];
      rewrite E in Hin; auto.
    destruct Hin as [<- | Hin]; auto.
    right; apply derived_ok_draft_entry.
  - unfold after_update in Hin.
    destruct (snd r) as [u|]; auto.
    destruct (handleUpdateCommission_entries _ _ _ Hin) as [H | ->]; auto.
    right; apply derived_ok_recalculate.
Qed.

(** The claim that the stored [net_to_pay] equals
    [net_total * commission_rate / 100] fails: when the rate of seed entry 2
    (net total 12000) is edited inline to 7, the handlers store
    840.0000000000001, the double that [12000 * (7 / 100)] gives, while
    [12000 * 7 / 100] is 840, both exactly and in doubles. *)
Lemma stored_net_to_pay_is_not_the_exact_product :
  exists s' u e,
    run (handleInlineUpdate ascii_runtime (commissions_view alex MOCK_ENTRIES)
           (initial_list_state alex) "2023-12-01" "2"
           (EditNumber N_commission_rate 7)) [] = Some (s', Some u) /\
    after_update (s', Some u) MOCK_ENTRIES = [mock_1; e; mock_3] /\
    net_total e = 12000%float /\
    commission_rate e = 7%float /\
    net_to_pay e = 0x1.a400000000001p+9%float /\
    (12000 * 7 / 100 = 840)%float /\
    PrimFloat.eqb (net_to_pay e) 840 = false /\
    PrimFloat.eqb (net_to_pay e) (net_total e * commission_rate e / 100) = false.
Proof.
  eexists _, _, _. split; [reflexivity|]. split; [reflexivity|].
  repeat split.
Qed.

(** C1 (amended).  After any create (manual-add form, review save) or update
    (inline edit) of the collection, every entry is either an untouched
    entry of the previous collection or has [net_total] equal to the double
    [amount_before_vat - cost_before_vat] and [net_to_pay] equal to the
    double [net_total * (commission_rate / 100)], the quotient rounded
    before the product; hence a collection in which this holds for every
    entry keeps it for every entry.  The derived fields are written only by
    this recomputation: an edit aimed at [net_total] or [net_to_pay]
    themselves ends recomputed as well. *)
Theorem derived_fields_recomputed_on_every_mutation
  (commissions commissions' : list CommissionEntry) :
  mutation commissions commissions' ->
  (forall e, In e commissions' -> In e commissions \/ derived_ok e) /\
  (Forall derived_ok commissions -> Forall derived_ok commissions').
Proof.
  intros Hm. split.
  - intros e. now apply mutation_entries.
  - rewrite !List.Forall_forall. intros Hall e Hin.
    destruct (mutation_entries _ _ _ Hm Hin); auto.
Qed.

Lemma derived_fields_recomputed_witness :
  mutation MOCK_ENTRIES seed_after_rate_edit /\
  Forall derived_ok seed_after_rate_edit /\
  map net_to_pay seed_after_rate_edit
    = [225; 0x1.a400000000001p+9; 400]%float.
Proof.
  assert (Hm : mutation MOCK_ENTRIES seed_after_rate_edit).
  { unfold seed_after_rate_edit.
    apply (mut_inline_edit MOCK_ENTRIES ascii_runtime
             (commissions_view alex MOCK_ENTRIES)
             (initial_list_state alex) "2023-12-01" "2"
             (EditNumber N_commission_rate 7)).
    apply out_ret. }
  split; [exact Hm | split].
  - apply (derived_fields_recomputed_on_every_mutation _ _ Hm).
    apply derived_ok_MOCK_ENTRIES.
  - reflexivity.
Defined.

(** *** Inline edits *)

(** Case analysis on the field an edit writes. *)
Ltac case_edit ed := destruct ed as [[] ?v|[] ?q|?st].

Lemma get_field_apply_edit (e : CommissionEntry) (ed : edit) :
  get_field (edit_field ed) (apply_edit e ed) = edit_value ed.
Proof. case_edit ed; reflexivity. Qed.

Lemma status_recalculate (e : CommissionEntry) :
  commission_status (recalculate e) = commission_status e.
Proof. reflexivity. Qed.

Lemma id_recalculate (e : CommissionEntry) : id (recalculate e) = id e.
Proof. reflexivity. Qed.

Lemma truthy_Some (d : string) : d <> "" -> Js.truthy (Some d) = true.
Proof.
  intros H. unfold Js.truthy.
  destruct (String.eqb_spec d ""); [contradiction | reflexivity].
Qed.




(** C3.  On a view that is not read-only, editing [client_paid_date] of an
    entry to a non-empty value hands [onUpdate] the entry with that date; its
    status is [eligible] when the entry was [unpaid], and is the entry's own
    status when it was [eligible] or [paid].  The recalculation done by the
    parent keeps that status. *)
Theorem client_paid_date_edit_promotes_unpaid
  (rt : Runtime) (p : ListProps) (s : ListState) (today i d : string)
  (entry : CommissionEntry) :
  isViewReadOnly p s = false ->
  List.find (fun e => String.eqb (id e) i) (activeEntries p s) = Some entry ->
  d <> "" ->
  exists s' e',
    handleInlineUpdate rt p s today i (EditText T_client_paid_date d)
      = Ret (s', Some e') /\
    client_paid_date e' = Some d /\
    (commission_status entry = UNPAID ->
       commission_status e' = ELIGIBLE /\
       commission_status (recalculate e') = ELIGIBLE) /\
    (commission_status entry = ELIGIBLE \/ commission_status entry = PAID ->
       commission_status e' = commission_status entry /\
       commission_status (recalculate e') = commission_status entry).
Proof.
  intros Hro Hfind Hd.
  unfold handleInlineUpdate. rewrite Hro, Hfind. cbv beta iota zeta.
  rewrite (truthy_Some d Hd).
  destruct (commission_status entry) eqn:Hst; simpl;
    eexists _, _; (split; [reflexivity|]); simpl; rewrite ?Hst;
    (split; [reflexivity|]);
    (split; [intros Hu | intros [He | He]]);
    first [discriminate | split; reflexivity].
Qed.

Lemma client_paid_date_edit_witness :
  exists s' e',
    handleInlineUpdate ascii_runtime (commissions_view sarah MOCK_ENTRIES)
      (initial_list_state sarah)
      "2023-12-01" "3" (EditText T_client_paid_date "2023-12-05")
      = Ret (s', Some e') /\
    client_paid_date e' = Some "2023-12-05" /\
    (commission_status mock_3 = UNPAID ->
       commission_status e' = ELIGIBLE /\
       commission_status (recalculate e') = ELIGIBLE) /\
    (commission_status mock_3 = ELIGIBLE \/ commission_status mock_3 = PAID ->
       commission_status e' = commission_status mock_3 /\
       commission_status (recalculate e') = commission_status mock_3).
Proof.
  apply (client_paid_date_edit_promotes_unpaid ascii_runtime
           (commissions_view sarah MOCK_ENTRIES) (initial_list_state sarah)
           "2023-12-01" "3" "2023-12-05" mock_3);
    [reflexivity | reflexivity | discriminate].
Defined.


(** *** Edits that fail validation *)

(** The four ways [validateField] rejects an edit. *)
Lemma validateField_false_iff (rt : Runtime) (ed : edit) :
  validateField rt ed = false <->
  (exists q, ed = EditNumber N_amount_before_vat q /\ PrimFloat.ltb q 0 = true) \/
  (exists q, ed = EditNumber N_cost_before_vat q /\ PrimFloat.ltb q 0 = true) \/
  (exists q, ed = EditNumber N_commission_rate q /\
             (PrimFloat.ltb q 0 = true \/ PrimFloat.ltb 100 q = true)) \/
  (exists v, ed = EditText T_invoice_number v /\ (v = "" \/ trim rt v = "")).
Proof.
  split.
  - destruct ed as [[] v|[] q|st]; simpl; try discriminate;
      rewrite negb_false_iff.
    + rewrite orb_true_iff, !String.eqb_eq. intros H.
      right; right; right. eauto.
    + intros H. left; eauto.
    + intros H. right; left; eauto.
    + rewrite orb_true_iff. intros H. right; right; left; eauto.
  - intros [(q & -> & H) | [(q & -> & H) | [(q & -> & H) | (v & -> & H)]]];
      simpl; rewrite negb_false_iff.
    + exact H.
    + exact H.
    + rewrite orb_true_iff. exact H.
    + rewrite orb_true_iff, !String.eqb_eq. exact H.
Qed.



(** *** The sort comparator *)

Lemma sortComparator_unfold (cfg : SortConfig) (a b : CommissionEntry) :
  sortComparator cfg a b
  = compareValues (sort_direction cfg) (get_field (key cfg) a) (get_field (key cfg) b).
Proof. reflexivity. Qed.

(** [v === v] holds for every value but [NaN]. *)
Lemma strict_equals_refl (v : Js.value) :
  Js.is_nan_value v = false -> Js.strict_equals v v = true.
Proof.
  destruct v as [| |t|q]; simpl; try reflexivity.
  - intros _. apply String.eqb_refl.
  - unfold Js.is_nan. now rewrite negb_false_iff.
Qed.

(** C4.  For two entries [a] and [b] compared under the sort key [k]: the
    comparator returns 0 when the two key values are equal ([===], which
    holds of a value and itself unless it is [NaN]).  An entry whose key
    value is [null] or [undefined] is put after an entry whose key value is
    defined, in both directions.  When both key values are defined, the
    ascending result is -1 or 1 according to [<] on the key values, and the
    descending result is its negation; when one of them is not defined the
    direction changes nothing. *)
Theorem sort_comparator_policy (k : field) (a b : CommissionEntry) :
  let aValue := get_field k a in
  let bValue := get_field k b in
  let cmp d x y := sortComparator {| key := k; sort_direction := d |} x y in
  (Js.strict_equals aValue bValue = true -> forall d, cmp d a b = 0) /\
  (aValue = bValue -> Js.is_nan_value aValue = false ->
     forall d, cmp d a b = 0) /\
  (Js.is_nullish aValue = true -> Js.is_nullish bValue = false ->
     forall d, cmp d a b = 1 /\ cmp d b a = -1) /\
  (Js.is_nullish aValue = false -> Js.is_nullish bValue = false ->
   Js.strict_equals aValue bValue = false ->
     cmp Asc a b = if Js.less_than aValue bValue then -1 else 1) /\
  (Js.is_nullish aValue = false -> Js.is_nullish bValue = false ->
     cmp Desc a b = - cmp Asc a b) /\
  (Js.is_nullish aValue = true \/ Js.is_nullish bValue = true ->
     cmp Desc a b = cmp Asc a b).
Proof.
  cbv zeta. unfold sortComparator, compareValues; simpl key; simpl sort_direction.
  generalize (get_field k a) (get_field k b). intros aValue bValue.
  split; [|split; [|split; [|split; [|split]]]].
  - intros ->. reflexivity.
  - intros <- Hnan. rewrite (strict_equals_refl _ Hnan). reflexivity.
  - intros Ha Hb d.
    destruct aValue, bValue; try discriminate; split; reflexivity.
  - intros -> -> ->. reflexivity.
  - intros -> ->. destruct (Js.strict_equals aValue bValue); [reflexivity|].
    destruct (Js.less_than aValue bValue); reflexivity.
  - intros [Ha | Hb].
    + rewrite Ha. destruct (Js.strict_equals aValue bValue); reflexivity.
    + rewrite Hb. destruct (Js.strict_equals aValue bValue); [reflexivity|].
      destruct (Js.is_nullish aValue); reflexivity.
Qed.

Lemma sort_comparator_witness :
  let cmp k d x y := sortComparator {| key := k; sort_direction := d |} x y in
  cmp F_commission_rate Desc mock_1 mock_2 = 0 /\
  cmp F_customer Asc mock_2 mock_2 = 0 /\
  (cmp F_receipt_number Asc mock_2 mock_1 = 1 /\
   cmp F_receipt_number Asc mock_1 mock_2 = -1) /\
  (cmp F_receipt_number Desc mock_2 mock_1 = 1 /\
   cmp F_receipt_number Desc mock_1 mock_2 = -1) /\
  cmp F_net_to_pay Asc mock_1 mock_2 = -1 /\
  cmp F_net_to_pay Desc mock_1 mock_2 = - cmp F_net_to_pay Asc mock_1 mock_2 /\
  cmp F_client_paid_date Desc mock_2 mock_1
    = cmp F_client_paid_date Asc mock_2 mock_1.
Proof.
  cbv zeta.
  split; [|split; [|split; [|split; [|split; [|split]]]]].
  - apply (proj1 (sort_comparator_policy F_commission_rate mock_1 mock_2));
      reflexivity.
  - apply (proj1 (proj2 (sort_comparator_policy F_customer mock_2 mock_2)));
      reflexivity.
  - apply (proj1 (proj2 (proj2
             (sort_comparator_policy F_receipt_number mock_2 mock_1))));
      reflexivity.
  - apply (proj1 (proj2 (proj2
             (sort_comparator_policy F_receipt_number mock_2 mock_1))));
      reflexivity.
  - apply (proj1 (proj2 (proj2 (proj2
             (sort_comparator_policy F_net_to_pay mock_1 mock_2)))));
      reflexivity.
  - apply (proj1 (proj2 (proj2 (proj2 (proj2
             (sort_comparator_policy F_net_to_pay mock_1 mock_2))))));
      reflexivity.
  - apply (proj2 (proj2 (proj2 (proj2 (proj2
             (sort_comparator_policy F_client_paid_date mock_2 mock_1))))));
      left; reflexivity.
Defined.

(** *** Export *)

(** A numeric column of the entry rows adds up to the sum of its field. *)
Lemma column_sum_entry_rows (rt : Runtime) (p : ListProps) (s : ListState)
  (column : string) (f : CommissionEntry -> float) :
  (forall e, cell_of (entry_row rt p s e) column = Some (CNumber (f e))) ->
  forall view,
    column_sum column (map (entry_row rt p s) view) = sum_of f view.
Proof.
  intros Hcell view. unfold column_sum, sum_of.
  generalize 0%float. induction view as [|e view IH]; intros acc.
  - reflexivity.
  - simpl. rewrite Hcell. apply IH.
Qed.

Section ExportProperties.

Variable rt : Runtime.

(** C5.  With an empty view the export does nothing at all, and with more
    than 5000 rows it only shows the alert: neither way writes a file.  With
    1 to 5000 rows it writes one.  The handler has no other effect: it
    returns no component state and fires no callback. *)
Theorem export_guardrail (p : ListProps) (s : ListState) :
  let rows := Z.of_nat (length (filteredEntries rt p s)) in
  let result := handleExport rt p s in
  (rows = 0 -> result = NoExport) /\
  (5000 < rows -> result = ExportRefused export_limit_alert) /\
  (rows = 0 \/ 5000 < rows ->
     forall filename sheet data wscols,
       result <> WriteFile filename sheet data wscols) /\
  (0 < rows <= 5000 ->
     exists filename sheet data wscols,
       result = WriteFile filename sheet data wscols).
Proof.
  intros rows result. subst result. unfold handleExport. cbv zeta.
  fold rows.
  assert (Hn : 0 <= rows) by apply Nat2Z.is_nonneg.
  destruct (Z.eqb_spec rows 0) as [E0 | N0];
    [| destruct (Z.gtb_spec rows 5000) as [G | L]].
  - split; [reflexivity|]. split; [lia|]. split; [discriminate | lia].
  - split; [lia|]. split; [reflexivity|]. split; [discriminate | lia].
  - split; [lia|]. split; [lia|]. split; [lia|].
    intros _. eexists _, _, _, _. reflexivity.
Qed.

(** C6.  The exported data is one row per entry of the view, in order,
    followed by one totals row, the last of the data.  The row of an entry
    holds the entry's own fields under the column names of the sheet (and
    the freelancer's name first, in a team or manager view).  In the totals
    row the amount, cost, net total, net to pay and tax cells are the sums
    of those fields over the view, added up from 0 in the order of the view,
    which are also the sums of those columns over the entry rows; the
    customer, project, date, month, status, rate and note cells are
    blank. *)
Theorem export_rows_and_totals (p : ListProps) (s : ListState)
  (filename sheet : string) (data : list row) (wscols : list Z) :
  let view := filteredEntries rt p s in
  handleExport rt p s = WriteFile filename sheet data wscols ->
  exists entry_rows totals,
    data = app entry_rows [totals] /\
    length entry_rows = length view /\
    last data = Some totals /\
    (forall (n : nat) (e : CommissionEntry), view !! n = Some e ->
       exists r, entry_rows !! n = Some r /\ data !! n = Some r /\
         cell_of r "Freelancer"
           = (if with_freelancer p s
              then Some (CText (getUserName p (user_id e))) else None) /\
         Forall (fun kc => cell_of r (fst kc) = Some (snd kc))
           [ ("Invoice Number", CText (invoice_number e));
             ("Receipt Number", CText (Js.or_else (receipt_number e) ""));
             ("Customer", CText (customer e));
             ("Project", CText (project e));
             ("Amount Before VAT", CNumber (amount_before_vat e));
             ("Cost Before VAT", CNumber (cost_before_vat e));
             ("Commission Rate (%)", CNumber (commission_rate e));
             ("Net Total", CNumber (net_total e));
             ("Net to Pay", CNumber (net_to_pay e));
             ("Tax", CNumber (tax e));
             ("Invoice Month", CText (fmtMonth rt (invoice_month e)));
             ("Client Paid Date", CText (fmtDate rt (client_paid_date e)));
             ("Status", CText (status_string (commission_status e)));
             ("Company Paid Date", CText (fmtDate rt (company_paid_date e)));
             ("Note", CText (Js.or_else (note e) "")) ]) /\
    Forall (fun cf =>
              cell_of totals (fst cf) = Some (CNumber (sum_of (snd cf) view)) /\
              sum_of (snd cf) view = column_sum (fst cf) entry_rows)
      [ ("Amount Before VAT", amount_before_vat);
        ("Cost Before VAT", cost_before_vat);
        ("Net Total", net_total);
        ("Net to Pay", net_to_pay);
        ("Tax", tax) ] /\
    Forall (fun column => cell_of totals column = Some (CText ""))
      [ "Customer"; "Project"; "Invoice Month"; "Client Paid Date";
        "Company Paid Date"; "Status"; "Commission Rate (%)"; "Note" ].
Proof.
  intros view. unfold handleExport. cbv zeta. fold view.
  destruct (Z.of_nat (length view) =? 0); [discriminate|].
  destruct (Z.of_nat (length view) >? 5000); [discriminate|].
  intros H. injection H as _ _ <- _.
  exists (map (entry_row rt p s) view), (totalsRow p s view).
  split; [reflexivity|]. split; [apply length_map|].
  split; [apply last_snoc|]. split.
  { intros n e Hn. exists (entry_row rt p s e).
    assert (Hr : map (entry_row rt p s) view !! n = Some (entry_row rt p s e)).
    { rewrite list_lookup_fmap, Hn. reflexivity. }
    split; [exact Hr|]. split.
    { unfold export_data. apply lookup_app_l_Some. exact Hr. }
    unfold entry_row.
    destruct (with_freelancer p s);
      (split; [reflexivity | repeat constructor]). }
  split.
  { repeat constructor; simpl fst; simpl snd;
      try (unfold totalsRow; destruct (with_freelancer p s); reflexivity);
      symmetry; apply column_sum_entry_rows; intros e;
      unfold entry_row; destruct (with_freelancer p s); reflexivity. }
  unfold totalsRow.
  destruct (with_freelancer p s); repeat constructor.
Qed.

End ExportProperties.

Lemma export_guardrail_witness :
  handleExport ascii_runtime
    (commissions_view alex []) (initial_list_state alex) = NoExport /\
  exists filename sheet data wscols,
    handleExport ascii_runtime
      (commissions_view alex MOCK_ENTRIES) (initial_list_state alex)
    = WriteFile filename sheet data wscols.
Proof.
  split.
  - apply (proj1 (export_guardrail ascii_runtime
                    (commissions_view alex []) (initial_list_state alex))).
    reflexivity.
  - apply (proj2 (proj2 (proj2
             (export_guardrail ascii_runtime
                (commissions_view alex MOCK_ENTRIES) (initial_list_state alex))))).
    simpl. lia.
Defined.

(** Finds a pair in a list of pairs written out. *)
Ltac pick := repeat (first [left; reflexivity | right]).

Lemma export_rows_and_totals_witness :
  exists r1 r2 totals,
    export_data ascii_runtime
      (commissions_view alex MOCK_ENTRIES) (initial_list_state alex)
      (myCommissions alex MOCK_ENTRIES)
    = [r1; r2; totals] /\
    cell_of r1 "Invoice Number" = Some (CText "INV-2023-001") /\
    cell_of r1 "Net to Pay" = Some (CNumber 225) /\
    cell_of r2 "Amount Before VAT" = Some (CNumber 12000) /\
    cell_of r2 "Receipt Number" = Some (CText "") /\
    cell_of totals "Amount Before VAT" = Some (CNumber 17000) /\
    cell_of totals "Net to Pay" = Some (CNumber 825) /\
    column_sum "Net to Pay" [r1; r2] = 825%float /\
    cell_of totals "Customer" = Some (CText "").
Proof.
  destruct (export_rows_and_totals ascii_runtime
              (commissions_view alex MOCK_ENTRIES) (initial_list_state alex)
              "Commissions_Export.xlsx" "Commissions"
              (export_data ascii_runtime
                 (commissions_view alex MOCK_ENTRIES) (initial_list_state alex)
                 (myCommissions alex MOCK_ENTRIES))
              (column_widths
                 (export_data ascii_runtime
                    (commissions_view alex MOCK_ENTRIES) (initial_list_state alex)
                    (myCommissions alex MOCK_ENTRIES)))
              eq_refl)
    as (rows & totals & Hdata & Hlen & _ & Hrows & Hsums & Hblank).
  destruct (Hrows 0%nat mock_1 eq_refl) as (r1 & H1 & _ & _ & Hc1).
  destruct (Hrows 1%nat mock_2 eq_refl) as (r2 & H2 & _ & _ & Hc2).
  destruct rows as [|x1 [|x2 [|x3 rows]]]; try discriminate Hlen.
  injection H1 as ->. injection H2 as ->.
  exists r1, r2, totals. split; [exact Hdata|].
  pose proof (proj1 (Forall_forall _ _) Hc1) as C1.
  pose proof (proj1 (Forall_forall _ _) Hc2) as C2.
  pose proof (proj1 (Forall_forall _ _) Hsums) as S.
  split; [apply (C1 ("Invoice Number", _)); simpl; pick|].
  split; [apply (C1 ("Net to Pay", _)); simpl; pick|].
  split; [apply (C2 ("Amount Before VAT", _)); simpl; pick|].
  split; [apply (C2 ("Receipt Number", _)); simpl; pick|].
  split; [apply (S ("Amount Before VAT", amount_before_vat)); simpl; pick|].
  split; [apply (S ("Net to Pay", net_to_pay)); simpl; pick|].
  split; [symmetry; apply (S ("Net to Pay", net_to_pay)); simpl; pick|].
  exact (Forall_inv Hblank).
Defined.

(** *** Currency conversion *)

Lemma EXCHANGE_RATES_truthy (c : string) (r : float) :
  EXCHANGE_RATES !! c = Some r -> Js.truthy_num r = true.
Proof.
  unfold EXCHANGE_RATES. simpl list_to_map. intros H.
  repeat (apply lookup_insert_Some in H;
          destruct H as [[_ <-] | [_ H]]; [reflexivity|]).
  rewrite lookup_empty in H. discriminate.
Qed.

Lemma map_item_conversion rt now_iso parse_iso u item :
  (item_amount_before_vat (map_item rt now_iso parse_iso u item),
   conversionInfo (map_item rt now_iso parse_iso u item))
  = convert_amount rt item.
Proof. simpl. destruct (convert_amount rt item); reflexivity. Qed.

Lemma or_else_truthy (c d : string) : c <> "" -> Js.or_else (Some c) d = c.
Proof.
  intros H. simpl. destruct (String.eqb_spec c ""); [contradiction | reflexivity].
Qed.

(** The claim that every recognized foreign currency code leads to a
    conversion fails on amounts that are not positive: an extracted amount of
    0 in USD keeps no conversion metadata, and an extracted amount of -100 in
    USD stays -100 instead of becoming [round(-100 * 34.5, 2) = -3450]. *)
Lemma nonpositive_amount_is_not_converted :
  EXCHANGE_RATES !! "USD" = Some 34.5%float /\
  convert_amount ascii_runtime
    (mkRaw (Some "A-1") None None (Some 0%float) (Some "USD") None None)
    = (0%float, None) /\
  convert_amount ascii_runtime
    (mkRaw (Some "A-2") None None (Some (-100)%float) (Some "USD") None None)
    = ((-100)%float, None) /\
  Js.toFixed2 (-100 * 34.5) = (-3450)%float /\
  PrimFloat.eqb (-100) (Js.toFixed2 (-100 * 34.5)) = false.
Proof.
  split; [reflexivity|]. split; [reflexivity|]. split; [reflexivity|].
  split; reflexivity.
Qed.

(** C7 (amended).  For a raw record mapped into a draft, with [amount] the
    extracted amount (0 when absent):
    - without a currency code, or with the code of the local currency, or
      with an amount that is not positive, the draft keeps [amount] and no
      conversion record;
    - with a code that the rate table knows (after upper-casing), other than
      THB, and a positive amount, the draft amount is the double product
      [amount * rate] put through [toFixed(2)] and read back as a number,
      and the conversion record holds the code, the original amount and the
      rate;
    - with a code that the rate table does not know, the draft keeps
      [amount] and no conversion record;
    - 100 USD becomes 3450, with the record (USD, 100, 34.5).
    The engine's [toUpperCase] is only assumed to leave [THB] and [USD] as
    they are. *)
Theorem currency_conversion_rule
  (rt : Runtime) (now_iso : string) (parse_iso : string -> option string)
  (u : Profile) (item : RawInvoice) :
  toUpperCase rt "THB" = "THB" ->
  toUpperCase rt "USD" = "USD" ->
  let draft := map_item rt now_iso parse_iso u item in
  let amount := number_or (raw_amount_before_vat item) 0%float in
  (Js.truthy (raw_currency_code item) = false \/
   toUpperCase rt (Js.or_else (raw_currency_code item) "THB") = "THB" \/
   PrimFloat.ltb 0 amount = false ->
     item_amount_before_vat draft = amount /\ conversionInfo draft = None) /\
  (forall c r,
     raw_currency_code item = Some c -> c <> "" ->
     toUpperCase rt c <> "THB" ->
     EXCHANGE_RATES !! toUpperCase rt c = Some r ->
     PrimFloat.ltb 0 amount = true ->
     item_amount_before_vat draft = Js.toFixed2 (amount * r) /\
     conversionInfo draft
       = Some {| originalCurrency := toUpperCase rt c;
                 originalAmount := amount;
                 rate := r |}) /\
  (forall c,
     raw_currency_code item = Some c ->
     EXCHANGE_RATES !! toUpperCase rt c = None ->
     item_amount_before_vat draft = amount /\ conversionInfo draft = None) /\
  (raw_amount_before_vat item = Some 100%float ->
   raw_currency_code item = Some "USD" ->
     item_amount_before_vat draft = 3450%float /\
     conversionInfo draft
       = Some {| originalCurrency := "USD";
                 originalAmount := 100%float;
                 rate := 34.5%float |}).
Proof.
  intros Hthb Husd draft amount.
  assert (Hconv : (item_amount_before_vat draft, conversionInfo draft)
                  = convert_amount rt item) by apply map_item_conversion.
  assert (Hsplit : forall x y,
             convert_amount rt item = (x, y) ->
             item_amount_before_vat draft = x /\ conversionInfo draft = y).
  { intros x y E. rewrite E in Hconv. now inversion Hconv. }
  clearbody draft. unfold convert_amount in Hsplit. fold amount in Hsplit.
  split; [|split; [|split]].
  - intros H. apply Hsplit.
    destruct H as [H | [H | H]].
    + destruct (raw_currency_code item) as [c|].
      * simpl in H. apply negb_false_iff in H.
        unfold Js.or_else, Js.truthy. rewrite H. simpl negb.
        cbv beta iota. rewrite Hthb. reflexivity.
      * unfold Js.or_else. rewrite Hthb. reflexivity.
    + rewrite H. reflexivity.
    + rewrite H, andb_false_r. reflexivity.
  - intros c r Hc Hne Hthb' Hrate Hpos. apply Hsplit.
    rewrite Hc, (or_else_truthy c "THB" Hne).
    destruct (String.eqb_spec (toUpperCase rt c) "THB"); [contradiction|].
    rewrite Hpos, Hrate. simpl.
    rewrite (EXCHANGE_RATES_truthy _ _ Hrate). reflexivity.
  - intros c Hc Hrate. apply Hsplit. rewrite Hc.
    destruct (String.eqb_spec c "") as [-> | Hne].
    + unfold Js.or_else, Js.truthy. simpl. rewrite Hthb. reflexivity.
    + rewrite (or_else_truthy c "THB" Hne), Hrate.
      match goal with |- (if ?b then _ else _) = _ => destruct b end; reflexivity.
  - intros Ha Hc.
    apply Hsplit. subst amount. rewrite Ha, Hc.
    rewrite (or_else_truthy "USD" "THB") by discriminate.
    rewrite Husd. reflexivity.
Qed.

Lemma currency_conversion_witness :
  let draft :=
    map_item ascii_runtime "2023-12-01T00:00:00.000Z" (fun _ => None) alex
      (mkRaw (Some "INV-7") None (Some "Globex") (Some 99.99%float) (Some "usd")
         None None) in
  item_amount_before_vat draft = Js.toFixed2 (99.99 * 34.5) /\
  conversionInfo draft
    = Some {| originalCurrency := "USD";
              originalAmount := 99.99%float;
              rate := 34.5%float |}.
Proof.
  apply (proj1 (proj2
           (currency_conversion_rule ascii_runtime
              "2023-12-01T00:00:00.000Z" (fun _ => None) alex
              (mkRaw (Some "INV-7") None (Some "Globex") (Some 99.99%float)
                 (Some "usd") None None)
              eq_refl eq_refl))
           "usd" 34.5%float); try reflexivity; try discriminate.
Defined.

(** The rounding is that of the double product: 99.99 USD is 3449.65, since
    the double [99.99 * 34.5] lies below 3449.655, and 0.03 USD is 1.03. *)
Example converted_amount_rounds_the_double_product :
  let draft amount :=
    map_item ascii_runtime "2023-12-01T00:00:00.000Z" (fun _ => None) alex
      (mkRaw (Some "INV-7") None (Some "Globex") (Some amount) (Some "USD")
         None None) in
  item_amount_before_vat (draft 99.99%float) = 3449.65%float /\
  item_amount_before_vat (draft 0.03%float) = 1.03%float /\
  item_amount_before_vat (draft 100%float) = 3450%float /\
  item_amount_before_vat (draft 0.001%float) = 0.03%float.
Proof. repeat split; reflexivity. Qed.

(** *** Duplicate invoice numbers *)


Lemma isDuplicate_iff (rt : Runtime) (p : ReviewProps) (it : DraftItem) :
  isDuplicate rt p it = true <->
  exists c, In c (existingCommissions p) /\
            toLowerCase rt (invoice_number c)
              = toLowerCase rt (item_invoice_number it) /\
            user_id c = profile_id (review_user p).
Proof.
  unfold isDuplicate. rewrite existsb_exists.
  split; intros (c & Hin & H); exists c; (split; [exact Hin|]).
  - apply andb_true_iff in H. destruct H as [H1 H2].
    split; now apply String.eqb_eq.
  - destruct H as [H1 H2]. apply andb_true_iff. split; now apply String.eqb_eq.
Qed.




(** *** The upload queue *)

Lemma slice0_nonneg {A : Type} (e : Z) (l : list A) :
  0 <= e -> Js.slice0 e l = firstn (Z.to_nat e) l.
Proof.
  intros He. unfold Js.slice0.
  destruct (Z.ltb_spec e 0) as [Hlt | _]; [lia|].
  destruct (Z.le_ge_cases e (Z.of_nat (length l))) as [Hle | Hge].
  - rewrite Z.min_l by exact Hle. reflexivity.
  - rewrite Z.min_r by exact Hge. rewrite Nat2Z.id.
    rewrite firstn_all. symmetry. apply firstn_all2. lia.
Qed.

Lemma length_filter_le {A : Type} (f : A -> bool) (l : list A) :
  (length (List.filter f l) <= length l)%nat.
Proof.
  induction l as [|x l IH]; simpl; [lia|].
  destruct (f x); simpl; lia.
Qed.

Lemma map_file_imap (g : nat -> File -> UploadItem) (l : list File) :
  (forall k f, file (g k f) = f) -> map file (imap g l) = l.
Proof.
  revert g. induction l as [|x l IH]; intros g Hg; simpl; [reflexivity|].
  rewrite Hg. f_equal. apply IH. intros k f. apply Hg.
Qed.

(** The items a call creates: their files are the PDFs among the first
    [5 - queue.length] files, and either the queue is left alone or they are
    appended to it. *)
Lemma processFiles_spec randomUUID (queue : list UploadItem) (files : list File) :
  let r := processFiles randomUUID queue files in
  map file (newItems r)
    = List.filter is_pdf (Js.slice0 (5 - Z.of_nat (length queue)) files) /\
  queue_after r = app queue (newItems r).
Proof.
  unfold processFiles.
  match goal with |- context [imap ?g ?l] =>
    assert (Hmap : map file (imap g l) = l)
      by (apply map_file_imap; reflexivity);
    destruct (imap g l) as [|x created]
  end; simpl.
  - split; [exact Hmap | symmetry; apply app_nil_r].
  - split; [exact Hmap | reflexivity].
Qed.

Lemma processFiles_length randomUUID (queue : list UploadItem) (files : list File) :
  (length queue <= 5)%nat ->
  (length (newItems (processFiles randomUUID queue files)) <= 5 - length queue)%nat.
Proof.
  intros Hq.
  destruct (processFiles_spec randomUUID queue files) as [Hfiles _].
  rewrite <- (length_map file), Hfiles.
  etransitivity; [apply length_filter_le|].
  rewrite slice0_nonneg by lia.
  rewrite length_firstn. lia.
Qed.

(** The queue never holds more than five items. *)
Lemma queue_reachable_bounded (queue : list UploadItem) :
  queue_reachable queue -> (length queue <= 5)%nat.
Proof.
  induction 1 as [| randomUUID queue files _ IH | i queue _ IH | i f queue _ IH].
  - simpl. lia.
  - destruct (processFiles_spec randomUUID queue files) as [_ ->].
    rewrite length_app.
    pose proof (processFiles_length randomUUID queue files IH). lia.
  - unfold removeQueueItem.
    etransitivity; [apply length_filter_le | exact IH].
  - unfold updateQueueItem. rewrite length_map. exact IH.
Qed.

(** C10.  For every queue the component can hold and every list of files, a
    call of [processFiles] leaves a queue of at most five items; it appends
    the items it creates, which are at most [5 - queue.length]; each of them
    holds a PDF, namely the PDFs among the first [5 - queue.length] files, in
    order (the truncation comes before the filter); and when it creates no
    item the queue is unchanged. *)
Theorem upload_queue_bounded
  (randomUUID : nat -> string) (queue : list UploadItem) (files : list File) :
  queue_reachable queue ->
  let r := processFiles randomUUID queue files in
  (length (queue_after r) <= 5)%nat /\
  queue_after r = app queue (newItems r) /\
  (length (newItems r) <= 5 - length queue)%nat /\
  Forall (fun it => is_pdf (file it) = true) (newItems r) /\
  map file (newItems r) = List.filter is_pdf (firstn (5 - length queue) files) /\
  (newItems r = [] -> queue_after r = queue).
Proof.
  intros Hreach r.
  pose proof (queue_reachable_bounded queue Hreach) as Hq.
  destruct (processFiles_spec randomUUID queue files) as [Hfiles Hqueue].
  fold r in Hfiles, Hqueue.
  rewrite slice0_nonneg in Hfiles by lia.
  replace (Z.to_nat (5 - Z.of_nat (length queue))) with (5 - length queue)%nat
    in Hfiles by lia.
  split; [|split; [|split; [|split; [|split]]]].
  - apply (queue_reachable_bounded _ (reach_process randomUUID queue files Hreach)).
  - exact Hqueue.
  - apply processFiles_length. exact Hq.
  - apply List.Forall_forall. intros it Hin.
    assert (Hf : In (file it) (map file (newItems r))) by now apply in_map.
    rewrite Hfiles in Hf. apply filter_In in Hf. tauto.
  - exact Hfiles.
  - intros Hnil. rewrite Hqueue, Hnil. apply app_nil_r.
Qed.

Lemma upload_queue_witness :
  let r := processFiles (fun _ => "uuid") [] dropped_files in
  (length (queue_after r) <= 5)%nat /\
  queue_after r = app [] (newItems r) /\
  (length (newItems r) <= 5 - 0)%nat /\
  Forall (fun it => is_pdf (file it) = true) (newItems r) /\
  map file (newItems r) = List.filter is_pdf (firstn (5 - 0) dropped_files) /\
  (newItems r = [] -> queue_after r = []).
Proof.
  exact (upload_queue_bounded (fun _ => "uuid") [] dropped_files reach_initial).
Defined.

Example upload_queue_truncates_before_filtering :
  map (fun it => name (file it))
    (newItems (processFiles (fun _ => "uuid") [] dropped_files))
  = ["a.pdf"; "c.pdf"; "d.pdf"; "e.pdf"].
Proof. reflexivity. Qed.

(** ** Further properties of the handlers *)

(** *** The filtered view *)





Section FilteredView.

Variable rt : Runtime.

(** The engine's sort rearranges its argument. *)
Hypothesis array_sort_In :
  forall cmp l e, In e (array_sort rt cmp l) <-> In e l.


End FilteredView.


(** The view of the seed entries of [alex], sorted by net to pay, largest
    first, and the same view with every filter set. *)
Example filteredEntries_seed :
  filteredEntries ascii_runtime
    (commissions_view alex MOCK_ENTRIES) (sorted_list_state alex)
  = [mock_2; mock_1] /\
  filteredEntries ascii_runtime
    (commissions_view alex MOCK_ENTRIES) (filtered_list_state alex)
  = [mock_2].
Proof. split; reflexivity. Qed.

(** *** Sorting *)

Lemma field_eqb_eq (a b : field) : field_eqb a b = true <-> a = b.
Proof.
  split; [|intros ->; apply String.eqb_refl].
  destruct a, b; intros H; (reflexivity || discriminate H).
Qed.

(** X2.  [handleSort] sorts by the clicked column.  A column that was not the
    sort column starts ascending; the sort column flips its direction.
    Property names tell the columns apart, so no other column ever counts as
    the same one, and a third click on a column is like the first. *)
Theorem handleSort_toggles (k : field) (current : option SortConfig) :
  key (handleSort k current) = k /\
  (current = None -> sort_direction (handleSort k current) = Asc) /\
  (forall c, current = Some c -> key c <> k ->
     sort_direction (handleSort k current) = Asc) /\
  (forall c, current = Some c -> key c = k ->
     sort_direction (handleSort k current) = opposite (sort_direction c)) /\
  handleSort k (Some (handleSort k (Some (handleSort k current))))
    = handleSort k current.
Proof.
  split; [reflexivity|]. split; [intros ->; reflexivity|].
  split; [|split].
  - intros c -> Hne. unfold handleSort; simpl.
    destruct (field_eqb (key c) k) eqn:E; [|reflexivity].
    apply field_eqb_eq in E. contradiction.
  - intros c -> <-. unfold handleSort; simpl.
    rewrite (proj2 (field_eqb_eq (key c) (key c)) eq_refl).
    destruct (sort_direction c); reflexivity.
  - unfold handleSort; simpl.
    rewrite (proj2 (field_eqb_eq k k) eq_refl).
    destruct current as [c|]; [|reflexivity].
    destruct (field_eqb (key c) k); [|reflexivity].
    destruct (sort_direction c); reflexivity.
Qed.

Lemma handleSort_toggles_witness :
  sort_direction
    (handleSort F_net_to_pay (Some (mkSortConfig F_net_to_pay Asc))) = Desc /\
  sort_direction
    (handleSort F_customer (Some (mkSortConfig F_net_to_pay Desc))) = Asc.
Proof.
  split.
  - apply (proj1 (proj2 (proj2 (proj2
             (handleSort_toggles F_net_to_pay
                (Some (mkSortConfig F_net_to_pay Asc))))))
             (mkSortConfig F_net_to_pay Asc)); reflexivity.
  - apply (proj1 (proj2 (proj2
             (handleSort_toggles F_customer
                (Some (mkSortConfig F_net_to_pay Desc)))))
             (mkSortConfig F_net_to_pay Desc)); [reflexivity | discriminate].
Defined.
Lemma SFcompare_antisym (x y : spec_float) :
  SFcompare y x = option_map CompOpp (SFcompare x y).
Proof.
  destruct x as [sx|sx| |sx mx ex], y as [sy|sy| |sy my ey]; simpl;
    try reflexivity;
    try (destruct sx; reflexivity); try (destruct sy; reflexivity);
    try (destruct sx, sy; reflexivity).
  pose proof (Pos.compare_cont_antisym mx my Eq) as H. simpl in H.
  destruct sx, sy; try reflexivity;
    rewrite (Z.compare_antisym ex ey);
    destruct (ex ?= ey)%Z; simpl; try reflexivity;
    rewrite <- H; destruct (Pos.compare_cont Eq mx my); reflexivity.
Qed.

Lemma SFcompare_None (x y : spec_float) :
  SFcompare x y = None -> SFcompare x x = None \/ SFcompare y y = None.
Proof.
  destruct x as [sx|sx| |sx mx ex], y as [sy|sy| |sy my ey]; simpl;
    try discriminate; auto.
Qed.

Lemma float_eqb_sym (x y : float) : PrimFloat.eqb x y = PrimFloat.eqb y x.
Proof.
  rewrite !FloatAxioms.eqb_spec. unfold SFeqb.
  rewrite (SFcompare_antisym (Prim2SF x) (Prim2SF y)).
  destruct (SFcompare (Prim2SF x) (Prim2SF y)) as [[]|]; reflexivity.
Qed.

(** On two numbers that are not [NaN] and not equal, [<] holds one way. *)
Lemma float_ltb_antisym (x y : float) :
  Js.is_nan x = false -> Js.is_nan y = false ->
  PrimFloat.eqb x y = false ->
  PrimFloat.ltb y x = negb (PrimFloat.ltb x y).
Proof.
  unfold Js.is_nan. rewrite !negb_false_iff.
  rewrite !FloatAxioms.eqb_spec, !FloatAxioms.ltb_spec. unfold SFeqb, SFltb.
  rewrite (SFcompare_antisym (Prim2SF x) (Prim2SF y)).
  intros Hx Hy.
  destruct (SFcompare (Prim2SF x) (Prim2SF y)) as [[]|] eqn:E;
    try reflexivity; try discriminate.
  apply SFcompare_None in E. destruct E as [E | E].
  - rewrite E in Hx. discriminate.
  - rewrite E in Hy. discriminate.
Qed.

Lemma string_ltb_antisym (x y : string) :
  String.eqb x y = false -> String.ltb y x = negb (String.ltb x y).
Proof.
  intros Hne. unfold String.ltb.
  rewrite (String.compare_antisym y x).
  destruct (String.compare x y) eqn:E; try reflexivity.
  apply String.compare_eq_iff in E. subst.
  rewrite String.eqb_refl in Hne. discriminate.
Qed.

Lemma string_eqb_sym (x y : string) : String.eqb x y = String.eqb y x.
Proof.
  destruct (String.eqb_spec x y) as [-> | H]; [now rewrite String.eqb_refl|].
  destruct (String.eqb_spec y x) as [-> | _]; [contradiction | reflexivity].
Qed.

Lemma compareValues_strings_antisym d (x y : string) :
  compareValues d (Js.VString y) (Js.VString x)
  = - compareValues d (Js.VString x) (Js.VString y).
Proof.
  unfold compareValues; simpl. rewrite (string_eqb_sym y x).
  destruct (String.eqb x y) eqn:E; [reflexivity|].
  rewrite (string_ltb_antisym x y E).
  destruct (String.ltb x y), d; reflexivity.
Qed.

Lemma compareValues_numbers_antisym d (x y : float) :
  Js.is_nan x = false -> Js.is_nan y = false ->
  compareValues d (Js.VNumber y) (Js.VNumber x)
  = - compareValues d (Js.VNumber x) (Js.VNumber y).
Proof.
  intros Hx Hy.
  unfold compareValues; simpl. rewrite (float_eqb_sym y x).
  destruct (PrimFloat.eqb x y) eqn:E; [reflexivity|].
  rewrite (float_ltb_antisym x y Hx Hy E).
  destruct (PrimFloat.ltb x y), d; reflexivity.
Qed.

Lemma compareValues_optional_antisym d (x y : option string) :
  compareValues d (opt_value y) (opt_value x)
  = - compareValues d (opt_value x) (opt_value y).
Proof.
  destruct x as [x|], y as [y|]; try reflexivity.
  apply compareValues_strings_antisym.
Qed.

(** X3.  On two entries the result of the sort comparator is -1, 0 or 1.
    When neither key value is [NaN], the comparator is antisymmetric for
    every key and both directions: swapping the arguments negates the
    result; and it is 0 on an entry and itself. *)
Theorem sortComparator_antisymmetric (cfg : SortConfig) (a b : CommissionEntry) :
  (sortComparator cfg a b = -1 \/ sortComparator cfg a b = 0 \/
   sortComparator cfg a b = 1) /\
  (Js.is_nan_value (get_field (key cfg) a) = false ->
   Js.is_nan_value (get_field (key cfg) b) = false ->
     sortComparator cfg b a = - sortComparator cfg a b) /\
  (Js.is_nan_value (get_field (key cfg) a) = false ->
     sortComparator cfg a a = 0).
Proof.
  split; [|split].
  - unfold sortComparator, compareValues.
    destruct (Js.strict_equals _ _); [auto|].
    destruct (Js.is_nullish _); [auto|].
    destruct (Js.is_nullish _); [auto|].
    destruct (Js.less_than _ _), (sort_direction cfg); auto.
  - unfold sortComparator.
    destruct (key cfg); simpl get_field; simpl Js.is_nan_value; intros Ha Hb;
      first [ apply compareValues_strings_antisym
            | apply compareValues_numbers_antisym; assumption
            | apply compareValues_optional_antisym ].
  - intros Ha. unfold sortComparator, compareValues.
    rewrite (strict_equals_refl _ Ha). reflexivity.
Qed.

Lemma sortComparator_antisymmetric_witness :
  let cfg := {| key := F_net_to_pay; sort_direction := Desc |} in
  sortComparator cfg mock_2 mock_1 = - sortComparator cfg mock_1 mock_2 /\
  sortComparator cfg mock_1 mock_1 = 0.
Proof.
  split.
  - apply (proj1 (proj2 (sortComparator_antisymmetric
                           {| key := F_net_to_pay; sort_direction := Desc |}
                           mock_1 mock_2))); reflexivity.
  - apply (proj2 (proj2 (sortComparator_antisymmetric
                           {| key := F_net_to_pay; sort_direction := Desc |}
                           mock_1 mock_1))); reflexivity.
Defined.

(** A tax cell edited to [NaN] is put after every other entry whichever way
    the two are compared, and is not equal to itself. *)
Example sortComparator_on_nan :
  let cfg := {| key := F_tax; sort_direction := Asc |} in
  let e := apply_edit mock_1 (EditNumber N_tax nan) in
  sortComparator cfg e mock_2 = 1 /\ sortComparator cfg mock_2 e = 1 /\
  sortComparator cfg e e = 1.
Proof. repeat split; reflexivity. Qed.

(** *** Totals of the view *)

(** Each field of the accumulator of [totals] is a fold of its own. *)
Lemma totals_fold (view : list CommissionEntry) (acc : Totals) :
  let f := fun acc curr =>
    {| total := (total acc + net_to_pay curr)%float;
       unpaid :=
         (unpaid acc +
          (if status_eqb (commission_status curr) UNPAID
           then net_to_pay curr else 0))%float;
       eligible :=
         (eligible acc +
          (if status_eqb (commission_status curr) ELIGIBLE
           then net_to_pay curr else 0))%float;
       paid :=
         (paid acc +
          (if status_eqb (commission_status curr) PAID
           then net_to_pay curr else 0))%float |} in
  let bucket st x e :=
    (x + (if status_eqb (commission_status e) st then net_to_pay e else 0))%float in
  total (fold_left f view acc)
    = fold_left (fun x e => (x + net_to_pay e)%float) view (total acc) /\
  unpaid (fold_left f view acc) = fold_left (bucket UNPAID) view (unpaid acc) /\
  eligible (fold_left f view acc)
    = fold_left (bucket ELIGIBLE) view (eligible acc) /\
  paid (fold_left f view acc) = fold_left (bucket PAID) view (paid acc).
Proof.
  intros f bucket. revert acc.
  induction view as [|e view IH]; intros acc; simpl.
  - repeat split.
  - destruct (IH (f acc e)) as (H1 & H2 & H3 & H4).
    rewrite H1, H2, H3, H4. repeat split.
Qed.

(** X4.  For every view, the total of the footer is the Net to Pay sum that
    the export writes in its totals row, the same doubles added in the same
    order, and each of the three status totals is the sum, in the order of
    the view, of the net to pay of the entries of that status and of 0 for
    the others. *)
Theorem totals_partition (view : list CommissionEntry) :
  let of_status st e :=
    if status_eqb (commission_status e) st then net_to_pay e else 0%float in
  total (totals view) = sum_of net_to_pay view /\
  unpaid (totals view) = sum_of (of_status UNPAID) view /\
  eligible (totals view) = sum_of (of_status ELIGIBLE) view /\
  paid (totals view) = sum_of (of_status PAID) view.
Proof.
  exact (totals_fold view {| total := 0; unpaid := 0; eligible := 0; paid := 0 |}).
Qed.

(** In doubles the total need not be the sum of the three status totals:
    with 0.3 paid, 0.2 eligible and 0.1 unpaid, in this order, the total is
    0.6 and the three status totals add up to 0.6000000000000001. *)
Example totals_of_small_entries :
  Forall derived_ok small_entries /\
  map net_to_pay small_entries = [0.3; 0.2; 0.1]%float /\
  total (totals small_entries) = 0.6%float /\
  (unpaid (totals small_entries) + eligible (totals small_entries)
   + paid (totals small_entries) = 0x1.3333333333334p-1)%float /\
  PrimFloat.eqb (total (totals small_entries))
    (unpaid (totals small_entries) + eligible (totals small_entries)
     + paid (totals small_entries)) = false.
Proof.
  split; [repeat constructor|]. repeat split; reflexivity.
Qed.

(** *** Deleting and updating entries *)

Lemma handleDeleteCommission_In (i : string) (cs : list CommissionEntry) e :
  In e (handleDeleteCommission i cs) <-> In e cs /\ id e <> i.
Proof.
  unfold handleDeleteCommission. rewrite filter_In, negb_true_iff.
  split; intros [H1 H2]; split; auto.
  - intros <-. rewrite String.eqb_refl in H2. discriminate.
  - destruct (String.eqb_spec (id e) i); [contradiction | reflexivity].
Qed.

(** X5.  A delete needs a view that is not read-only and a confirmed
    prompt: in a read-only view nothing is asked and nothing happens, and a
    declined prompt fires no callback.  Whatever the answers, the collection
    afterwards is either the one before or the one before without the entries
    carrying that identifier; and deleting an identifier that no entry
    carries changes nothing. *)
Theorem delete_needs_confirmation (p : ListProps) (s : ListState) (i : string)
  (commissions : list CommissionEntry) :
  (isViewReadOnly p s = true -> handleDeleteClick p s i = Ret None) /\
  (isViewReadOnly p s = false ->
     exists k, handleDeleteClick p s i = Confirm delete_confirm k /\
               k false = Ret None /\ k true = Ret (Some i)) /\
  (forall r, outcome (handleDeleteClick p s i) r ->
     after_delete r commissions = commissions \/
     forall e, In e (after_delete r commissions) <-> In e commissions /\ id e <> i) /\
  ((forall e, In e commissions -> id e <> i) ->
     handleDeleteCommission i commissions = commissions).
Proof.
  unfold handleDeleteClick.
  split; [intros ->; reflexivity|].
  split; [intros ->; eexists; repeat split|].
  split.
  - intros r Hr. destruct (isViewReadOnly p s).
    + apply outcome_Ret in Hr. subst. now left.
    + inversion Hr as [| |msg k b a Hk|]; subst.
      destruct b; apply outcome_Ret in Hk; subst; [right | now left].
      intros e. apply handleDeleteCommission_In.
  - intros Hall. unfold handleDeleteCommission.
    induction commissions as [|c cs IH]; [reflexivity|]. simpl.
    destruct (String.eqb_spec (id c) i) as [E | _].
    + exfalso. apply (Hall c); [now left | exact E].
    + simpl. f_equal. apply IH. intros e He. apply Hall. now right.
Qed.

Lemma delete_needs_confirmation_witness :
  (exists k, handleDeleteClick (commissions_view alex MOCK_ENTRIES)
               (initial_list_state alex) "2" = Confirm delete_confirm k /\
             k false = Ret None /\ k true = Ret (Some "2")) /\
  handleDeleteCommission "no-such-id" MOCK_ENTRIES = MOCK_ENTRIES.
Proof.
  split.
  - apply (proj1 (proj2 (delete_needs_confirmation
             (commissions_view alex MOCK_ENTRIES) (initial_list_state alex)
             "2" MOCK_ENTRIES))).
    reflexivity.
  - apply (proj2 (proj2 (proj2 (delete_needs_confirmation
             (commissions_view alex MOCK_ENTRIES) (initial_list_state alex)
             "no-such-id" MOCK_ENTRIES)))).
    intros e [<- | [<- | [<- | []]]]; discriminate.
Defined.

(** X6.  [handleUpdateCommission] keeps the shape of the collection: the
    identifiers, their order and their number are the same before and after;
    an entry with another identifier is kept as it is; and an update whose
    identifier no entry carries changes nothing. *)
Theorem update_keeps_shape (updatedEntry : CommissionEntry)
  (commissions : list CommissionEntry) :
  map id (handleUpdateCommission updatedEntry commissions) = map id commissions /\
  length (handleUpdateCommission updatedEntry commissions) = length commissions /\
  (forall c, In c commissions -> id c <> id updatedEntry ->
     In c (handleUpdateCommission updatedEntry commissions)) /\
  ((forall c, In c commissions -> id c <> id updatedEntry) ->
     handleUpdateCommission updatedEntry commissions = commissions).
Proof.
  unfold handleUpdateCommission. cbv zeta. rewrite id_recalculate.
  split; [|split; [|split]].
  - rewrite map_map. apply map_ext_in. intros c _.
    destruct (String.eqb_spec (id c) (id updatedEntry)) as [E | _];
      [rewrite id_recalculate; now symmetry | reflexivity].
  - apply length_map.
  - intros c Hin Hne. apply in_map_iff. exists c. split; [|exact Hin].
    destruct (String.eqb_spec (id c) (id updatedEntry)); [contradiction | reflexivity].
  - intros Hall. rewrite <- (map_id commissions) at 2.
    apply map_ext_in. intros c Hin.
    destruct (String.eqb_spec (id c) (id updatedEntry)) as [E | _];
      [exfalso; now apply (Hall c Hin) | reflexivity].
Qed.

Lemma update_keeps_shape_witness :
  In mock_1
    (handleUpdateCommission (apply_edit mock_2 (EditNumber N_cost_before_vat 2000))
       MOCK_ENTRIES).
Proof.
  apply (proj1 (proj2 (proj2 (update_keeps_shape
           (apply_edit mock_2 (EditNumber N_cost_before_vat 2000)) MOCK_ENTRIES)))).
  - left; reflexivity.
  - discriminate.
Defined.

(** *** What an inline edit changes *)

Lemma apply_edit_frame (e : CommissionEntry) (ed : edit) (f : field) :
  f <> edit_field ed -> get_field f (apply_edit e ed) = get_field f e.
Proof.
  intros Hf. case_edit ed; destruct f; try reflexivity; contradiction.
Qed.

Lemma handleInlineUpdate_cases (rt : Runtime) (p : ListProps) (s : ListState)
  (today i : string) (ed : edit) (entry : CommissionEntry) r e' :
  List.find (fun e => String.eqb (id e) i) (activeEntries p s) = Some entry ->
  outcome (handleInlineUpdate rt p s today i ed) r -> snd r = Some e' ->
  e' = apply_edit entry ed \/
  (exists d, ed = EditStatus PAID /\
             e' = with_company_paid_date (apply_edit entry ed) d) \/
  (exists v, ed = EditText T_client_paid_date v /\
             commission_status entry = UNPAID /\
             e' = with_status (apply_edit entry ed) ELIGIBLE).
Proof.
  intros Hfind Hout He'. unfold handleInlineUpdate in Hout.
  destruct (isViewReadOnly p s).
  { apply outcome_Ret in Hout. subst r. discriminate. }
  rewrite Hfind in Hout.
  destruct ed as [t v | n q | st].
  - destruct t; apply outcome_Ret in Hout; subst r; simpl in He';
      try (injection He' as <-; now left).
    destruct (negb (String.eqb v "") && status_eqb (commission_status entry) UNPAID)
      eqn:E; injection He' as <-; [|now left].
    right; right. exists v. apply andb_true_iff in E. destruct E as [_ E].
    repeat split. destruct (commission_status entry); (reflexivity || discriminate).
  - destruct n; apply outcome_Ret in Hout; subst r; injection He' as <-; now left.
  - destruct (is_paid st && negb (Js.truthy (company_paid_date entry))) eqn:E.
    + apply andb_true_iff in E. destruct E as [Hp _].
      assert (st = PAID) as -> by (destruct st; (reflexivity || discriminate)).
      inversion Hout as [| | |msg dflt k ans a Hk]; subst.
      destruct ans as [d|].
      * destruct (Js.truthy (Some d)); apply outcome_Ret in Hk; subst r;
          injection He' as <-; [right; left; eauto | now left].
      * apply outcome_Ret in Hk; subst r. injection He' as <-. now left.
    + apply outcome_Ret in Hout; subst r. injection He' as <-. now left.
Qed.

(** X7.  Whatever the user answers, the entry an inline edit hands to
    [onUpdate] carries the new value in the edited field, and differs from
    the entry of the table in no other field, except that the status may
    have been promoted by a client-paid-date edit and the company-paid date
    may have been filled by the prompt of a status edit. *)
Theorem inline_update_frame (rt : Runtime) (p : ListProps) (s : ListState)
  (today i : string) (ed : edit) (entry : CommissionEntry) r e' :
  List.find (fun e => String.eqb (id e) i) (activeEntries p s) = Some entry ->
  outcome (handleInlineUpdate rt p s today i ed) r -> snd r = Some e' ->
  get_field (edit_field ed) e' = edit_value ed /\
  (forall f, f <> edit_field ed -> f <> F_commission_status ->
             f <> F_company_paid_date -> get_field f e' = get_field f entry) /\
  (edit_field ed <> F_commission_status -> edit_field ed <> F_client_paid_date ->
     commission_status e' = commission_status entry) /\
  (edit_field ed <> F_commission_status -> edit_field ed <> F_company_paid_date ->
     company_paid_date e' = company_paid_date entry).
Proof.
  intros Hfind Hout He'.
  destruct (handleInlineUpdate_cases rt p s today i ed entry r e' Hfind Hout He')
    as [-> | [(d & -> & ->) | (v & -> & Hst & ->)]].
  - split; [apply get_field_apply_edit|]. split; [|split].
    + intros f Hf _ _. now apply apply_edit_frame.
    + intros H1 _. case_edit ed; try reflexivity. now elim H1.
    + intros _ H2. case_edit ed; try reflexivity. now elim H2.
  - split; [reflexivity|]. split; [|split].
    + intros f Hf _ Hc. destruct f; try reflexivity; contradiction.
    + intros H1. now elim H1.
    + intros H1. now elim H1.
  - split; [reflexivity|]. split; [|split].
    + intros f Hf Hs _. destruct f; try reflexivity; contradiction.
    + intros _ H2. now elim H2.
    + intros _ _. reflexivity.
Qed.

Lemma inline_update_frame_witness :
  get_field F_customer
    (apply_edit mock_2 (EditText T_client_paid_date "2023-12-05"))
  = get_field F_customer mock_2.
Proof.
  apply (proj1 (proj2 (inline_update_frame ascii_runtime
           (commissions_view alex MOCK_ENTRIES) (initial_list_state alex)
           "2023-12-01" "2" (EditText T_client_paid_date "2023-12-05") mock_2
           (set_invalidFields (initial_list_state alex)
              (<[invalid_key "2" F_client_paid_date := false]> ∅),
            Some (apply_edit mock_2 (EditText T_client_paid_date "2023-12-05")))
           (apply_edit mock_2 (EditText T_client_paid_date "2023-12-05"))
           eq_refl (out_ret _) eq_refl)));
    discriminate.
Defined.

(** X8.  An inline edit reaches [onUpdate] exactly when the view is not
    read-only and the identifier is that of an active entry.  In particular
    a manager looking at the team sees the team entries and can change none
    of them. *)
Theorem inline_update_fires_iff (rt : Runtime) (p : ListProps) (s : ListState)
  (today i : string) (ed : edit) :
  ((exists r e', outcome (handleInlineUpdate rt p s today i ed) r /\ snd r = Some e')
   <->
   isViewReadOnly p s = false /\
   exists entry,
     List.find (fun e => String.eqb (id e) i) (activeEntries p s) = Some entry) /\
  (role (user p) = MANAGER -> viewMode s = Team ->
     activeEntries p s = teamEntries p /\
     handleInlineUpdate rt p s today i ed = Ret (s, None) /\
     handleDeleteClick p s i = Ret None).
Proof.
  split.
  - split.
    + intros (r & e' & Hout & He'). unfold handleInlineUpdate in Hout.
      destruct (isViewReadOnly p s).
      { apply outcome_Ret in Hout. subst r. discriminate. }
      split; [reflexivity|].
      destruct (List.find _ _) as [entry|]; [eauto|].
      apply outcome_Ret in Hout. subst r. discriminate.
    + intros (Hro & entry & Hfind).
      unfold handleInlineUpdate. rewrite Hro, Hfind.
      destruct ed as [t v | n q | st];
        try (eexists _, _; split; [apply out_ret | reflexivity]).
      destruct (is_paid st && negb (Js.truthy (company_paid_date entry)));
        [| eexists _, _; split; [apply out_ret | reflexivity]].
      eexists _, _. split; [apply (out_prompt _ _ _ None); apply out_ret|].
      reflexivity.
  - intros Hrole Hteam.
    assert (Ht : is_team_view p s = true).
    { unfold is_team_view. rewrite Hrole, Hteam. reflexivity. }
    unfold activeEntries, handleInlineUpdate, handleDeleteClick, isViewReadOnly.
    rewrite Ht, orb_true_r. repeat split.
Qed.

Lemma inline_update_fires_witness :
  activeEntries (app_list_props bob MOCK_PROFILES MOCK_ENTRIES) (team_list_state bob)
    = teamEntries (app_list_props bob MOCK_PROFILES MOCK_ENTRIES) /\
  handleInlineUpdate ascii_runtime (app_list_props bob MOCK_PROFILES MOCK_ENTRIES)
    (team_list_state bob) "2023-12-01" "3" (EditStatus PAID)
    = Ret (team_list_state bob, None) /\
  handleDeleteClick (app_list_props bob MOCK_PROFILES MOCK_ENTRIES)
    (team_list_state bob) "3" = Ret None.
Proof.
  apply (proj2 (inline_update_fires_iff ascii_runtime
           (app_list_props bob MOCK_PROFILES MOCK_ENTRIES) (team_list_state bob)
           "2023-12-01" "3" (EditStatus PAID))); reflexivity.
Defined.

(** *** The manual-add form *)




(** *** Shape of the exported sheet *)

Section ExportShape.

Variable rt : Runtime.


End ExportShape.


(** *** The review view *)

Lemma set_modalConfig_restore (s : ReviewState) (m : option ModalConfig) :
  modalConfig s = None -> set_modalConfig (set_modalConfig s m) None = s.
Proof. destruct s; simpl. intros ->. reflexivity. Qed.

Lemma isDuplicate_false (rt : Runtime) (p : ReviewProps) (it : DraftItem) :
  (forall c, In c (existingCommissions p) ->
             user_id c = profile_id (review_user p) ->
             toLowerCase rt (invoice_number c)
               <> toLowerCase rt (item_invoice_number it)) ->
  isDuplicate rt p it = false.
Proof.
  intros H. apply not_true_iff_false. rewrite isDuplicate_iff.
  intros (c & Hin & Hinv & Hu). exact (H c Hin Hu Hinv).
Qed.

(** X11.  Saving a draft whose cost is blank saves nothing and opens the
    cost modal on that draft.  Cancelling the modal puts the view back in
    the state it had before the click.  Confirming it, when the acting user
    has no entry with that invoice number, saves the draft with a cost of 0
    (so that its net total is its amount), writes the 0 into the draft,
    marks it saved and closes the modal. *)
Theorem blank_cost_gate (rt : Runtime) (p : ReviewProps) (s : ReviewState)
  (uuid : string) (i : nat) (it : DraftItem) :
  items s !! i = Some it ->
  item_cost_before_vat it = None ->
  modalConfig s = None ->
  exists m,
    handleSaveClick rt p s uuid i = (set_modalConfig s (Some m), None) /\
    modal_type m = cost_empty /\ index m = i /\ isOpen m = true /\
    handleModalCancel (set_modalConfig s (Some m)) = (s, None) /\
    (isDuplicate rt p it = false ->
       exists s' e,
         handleModalConfirm rt p (set_modalConfig s (Some m)) uuid = (s', Some e) /\
         cost_before_vat e = 0%float /\
         net_total e = netTotal_of (item_amount_before_vat it) 0 /\
         items s' = <[i := with_cost it (Some 0%float)]> (items s) /\
         savedIds s' = {[ i ]} ∪ savedIds s /\
         modalConfig s' = None).
Proof.
  intros Hit Hcost Hmodal.
  unfold handleSaveClick. rewrite Hit, Hcost.
  eexists. split; [reflexivity|].
  split; [reflexivity|]. split; [reflexivity|]. split; [reflexivity|].
  split.
  - unfold handleModalCancel. now rewrite set_modalConfig_restore.
  - intros Hdup. unfold handleModalConfirm. simpl.
    unfold proceedWithDuplicateCheck. simpl items. rewrite Hit, Hdup.
    unfold finalizeSave. simpl items. rewrite Hit, Hcost.
    eexists _, _. split; [reflexivity|]. simpl. rewrite Hcost.
    repeat split.
Qed.

(** X12.  Saving a draft that has a cost, when no entry of the acting user
    carries its invoice number (entries of other users do not count), asks
    nothing: the entry goes to [onSave] at once, owned by the acting user,
    with the totals computed from the draft and the status [eligible] when
    the draft has a client-paid date and [unpaid] otherwise; the draft is
    marked saved and the collection gets the entry in front.  The same holds
    when the cost has just been typed into a blank draft. *)
Theorem save_without_duplicate (rt : Runtime) (p : ReviewProps)
  (s : ReviewState) (uuid : string) (i : nat) (it : DraftItem) (c : float)
  (commissions : list CommissionEntry) :
  items s !! i = Some it ->
  (forall x, In x (existingCommissions p) ->
             user_id x = profile_id (review_user p) ->
             toLowerCase rt (invoice_number x)
               <> toLowerCase rt (item_invoice_number it)) ->
  (item_cost_before_vat it = Some c ->
     exists s',
       handleSaveClick rt p s uuid i = (s', Some (draft_entry p uuid it)) /\
       items s' = items s /\
       savedIds s' = {[ i ]} ∪ savedIds s /\
       modalConfig s' = None /\
       after_save (s', Some (draft_entry p uuid it)) commissions
         = draft_entry p uuid it :: commissions) /\
  (let e := draft_entry p uuid (with_cost it (Some c)) in
   snd (handleSaveClick rt p (handleChange_cost s i (Some c)) uuid i) = Some e /\
   user_id e = profile_id (review_user p) /\
   cost_before_vat e = c /\
   net_total e = netTotal_of (item_amount_before_vat it) c /\
   net_to_pay e = netToPay_of (net_total e) (item_commission_rate it) /\
   (Js.truthy (item_client_paid_date it) = true -> commission_status e = ELIGIBLE) /\
   (Js.truthy (item_client_paid_date it) = false -> commission_status e = UNPAID)).
Proof.
  intros Hit Hnodup. split.
  - intros Hcost.
    pose proof (isDuplicate_false rt p it Hnodup) as Hdup.
    unfold handleSaveClick. rewrite Hit, Hcost.
    unfold proceedWithDuplicateCheck. rewrite Hit, Hdup.
    unfold finalizeSave. rewrite Hit, Hcost.
    eexists. split; [reflexivity|]. repeat split.
  - cbv zeta.
    assert (Hdup : isDuplicate rt p (with_cost it (Some c)) = false)
      by (apply isDuplicate_false; exact Hnodup).
    assert (Hlt : (i < length (items s))%nat)
      by (apply lookup_lt_is_Some; eauto).
    assert (Hit' : items (handleChange_cost s i (Some c)) !! i
                   = Some (with_cost it (Some c))).
    { unfold handleChange_cost. rewrite Hit. simpl.
      now apply list_lookup_insert_eq. }
    unfold handleSaveClick. rewrite Hit'. simpl item_cost_before_vat.
    unfold proceedWithDuplicateCheck. rewrite Hit', Hdup.
    unfold finalizeSave. rewrite Hit'. simpl.
    split; [reflexivity|]. split; [reflexivity|]. split; [reflexivity|].
    split; [reflexivity|]. split; [reflexivity|].
    split; intros ->; reflexivity.
Qed.

Lemma blank_cost_gate_witness :
  exists m,
    handleSaveClick ascii_runtime review_props receipt_review "uuid-4" 0
      = (set_modalConfig receipt_review (Some m), None) /\
    modal_type m = cost_empty /\
    handleModalCancel (set_modalConfig receipt_review (Some m))
      = (receipt_review, None).
Proof.
  destruct (blank_cost_gate ascii_runtime review_props receipt_review "uuid-4" 0 receipt_draft
              eq_refl eq_refl eq_refl)
    as (m & Hclick & Hty & _ & _ & Hcancel & _).
  exists m. repeat split; assumption.
Defined.

Lemma save_without_duplicate_witness :
  snd (handleSaveClick ascii_runtime review_props
         (handleChange_cost receipt_review 0 (Some 500%float)) "uuid-4" 0)
  = Some (draft_entry review_props "uuid-4" (with_cost receipt_draft (Some 500%float))).
Proof.
  apply (proj2 (save_without_duplicate ascii_runtime review_props receipt_review "uuid-4" 0
                  receipt_draft 500%float MOCK_ENTRIES eq_refl
                  ltac:(intros x [<- | [<- | [<- | []]]] _; discriminate))).
Defined.

Lemma lookup_map_Some {A B : Type} (f : A -> B) (l : list A) (i : nat) (x : A) :
  l !! i = Some x -> map f l !! i = Some (f x).
Proof.
  revert i. induction l as [|a l IH]; intros [|i] H; try discriminate.
  - injection H as ->. reflexivity.
  - simpl. now apply IH.
Qed.

Section FreshDrafts.

Variable rt : Runtime.
Variable now_iso : string.
Variable parse_iso : string -> option string.

(** X13.  A draft mapped from an extracted record always starts with a blank
    cost, so the first save click on any line of a fresh review opens the
    cost modal and saves nothing.  Once saved as mapped, a record with a
    receipt number gives an [eligible] entry whose client-paid date is the
    extracted invoice date (today when there is none), and a record without
    one gives an [unpaid] entry with no client-paid date and no receipt
    number; both carry the user's default rate. *)
Theorem fresh_draft_flow (u : Profile) (initialData : list RawInvoice)
  (p : ReviewProps) (uuid : string) (i : nat) (raw : RawInvoice) :
  initialData !! i = Some raw ->
  String.substring 0 10 now_iso <> "" ->
  let s := initial_review_state (map_items rt now_iso parse_iso u initialData) in
  let e := draft_entry p uuid (map_item rt now_iso parse_iso u raw) in
  (exists m, handleSaveClick rt p s uuid i = (set_modalConfig s (Some m), None) /\
             modal_type m = cost_empty /\ index m = i) /\
  commission_rate e = default_commission_rate u /\
  (Js.truthy (raw_receipt_number raw) = true ->
     commission_status e = ELIGIBLE /\
     receipt_number e = raw_receipt_number raw /\
     client_paid_date e
       = Some (Js.or_else (raw_invoice_date raw) (String.substring 0 10 now_iso))) /\
  (Js.truthy (raw_receipt_number raw) = false ->
     commission_status e = UNPAID /\
     receipt_number e = None /\
     client_paid_date e = None).
Proof.
  intros Hraw Htoday s e.
  split; [|split; [reflexivity | split]].
  - assert (Hit : items s !! i = Some (map_item rt now_iso parse_iso u raw)).
    { subst s. simpl. unfold map_items. now apply lookup_map_Some. }
    unfold handleSaveClick. rewrite Hit. simpl item_cost_before_vat.
    eexists. repeat split.
  - intros Hr. subst e. unfold draft_entry, map_item. simpl.
    rewrite Hr. simpl. rewrite Hr.
    assert (Hd : Js.or_else (raw_invoice_date raw) (String.substring 0 10 now_iso)
                 <> "").
    { destruct (raw_invoice_date raw) as [d|]; simpl; [|exact Htoday].
      destruct (String.eqb_spec d ""); [exact Htoday | assumption]. }
    apply String.eqb_neq in Hd. rewrite Hd. repeat split.
  - intros Hr. subst e. unfold draft_entry, map_item. simpl.
    rewrite Hr. repeat split.
Qed.

End FreshDrafts.

Lemma fresh_draft_flow_witness :
  commission_status (draft_entry review_props "uuid-4" receipt_draft) = ELIGIBLE /\
  client_paid_date (draft_entry review_props "uuid-4" receipt_draft)
    = Some "2023-11-28".
Proof.
  destruct (fresh_draft_flow ascii_runtime december_10 parse_day alex [receipt_raw]
              review_props "uuid-4" 0 receipt_raw eq_refl
              ltac:(discriminate))
    as (_ & _ & Hreceipt & _).
  destruct (Hreceipt eq_refl) as (Hst & _ & Hdate).
  split; [exact Hst | exact Hdate].
Defined.

(** X14.  Saving the last draft that is not yet saved makes [allSaved] true,
    which shows the button that leaves the review; before that save it is
    false, as it is for a review with no draft at all. *)
Theorem last_save_enables_finish (p : ReviewProps) (s : ReviewState)
  (uuid : string) (i : nat) (it : DraftItem) :
  items s !! i = Some it ->
  i ∉ savedIds s ->
  (size (savedIds s) + 1 = length (items s))%nat ->
  allSaved s = false /\
  allSaved (fst (finalizeSave p s uuid i)) = true /\
  allSaved (initial_review_state []) = false.
Proof.
  intros Hit Hnot Hsize. split; [|split; [|reflexivity]].
  - unfold allSaved. apply andb_false_iff. right.
    apply Nat.eqb_neq. lia.
  - unfold finalizeSave. rewrite Hit. unfold allSaved. simpl.
    assert (Hlen : length (match item_cost_before_vat it with
                           | Some _ => items s
                           | None => <[i := with_cost it (Some 0%float)]> (items s)
                           end) = length (items s)).
    { destruct (item_cost_before_vat it); [reflexivity | apply length_insert]. }
    rewrite Hlen.
    assert (Hs : size ({[ i ]} ∪ savedIds s) = S (size (savedIds s))).
    { rewrite size_union by set_solver. rewrite size_singleton. reflexivity. }
    rewrite Hs. apply andb_true_iff. split.
    + apply negb_true_iff, Nat.eqb_neq. lia.
    + apply Nat.eqb_eq. lia.
Qed.

Lemma last_save_enables_finish_witness :
  allSaved receipt_review = false /\
  allSaved (fst (finalizeSave review_props receipt_review "uuid-4" 0)) = true.
Proof.
  destruct (last_save_enables_finish review_props receipt_review "uuid-4" 0
              receipt_draft eq_refl ltac:(set_solver) eq_refl)
    as (H1 & H2 & _).
  split; [exact H1 | exact H2].
Defined.

(** *** More on the upload queue *)

Lemma imap_nil_inv {A B : Type} (g : nat -> A -> B) (l : list A) :
  imap g l = [] -> l = [].
Proof. destruct l; [reflexivity | discriminate]. Qed.

Lemma imap_fields (g : nat -> string) (l : list File) it :
  In it (imap (fun k f => mkUploadItem (g k) f uploading 0 None None) l) ->
  status it = uploading /\ progress it = 0 /\
  extractedData it = None /\ errorMessage it = None.
Proof.
  revert g. induction l as [|x l IH]; intros g; simpl; [tauto|].
  intros [<- | H]; [repeat split|].
  apply (IH (g ∘ S)). exact H.
Qed.

Lemma processFiles_newItems randomUUID (queue : list UploadItem) (files : list File) :
  newItems (processFiles randomUUID queue files)
  = imap (fun k f => mkUploadItem (randomUUID k) f uploading 0 None None)
      (List.filter is_pdf (Js.slice0 (5 - Z.of_nat (length queue)) files)).
Proof.
  unfold processFiles.
  match goal with |- context [imap ?g ?l] => destruct (imap g l) end;
    reflexivity.
Qed.

(** X15.  [processFiles] never touches the items already queued: they stay
    at the head of the queue, in order.  Every item it creates starts in
    status [uploading] with progress 0 and no result or error.  The alert is
    shown exactly when nothing is created and some dropped file is not a
    PDF.  A queue that already holds five items takes nothing, so PDFs
    dropped on it are discarded without a message. *)
Theorem processFiles_edges (randomUUID : nat -> string) (queue : list UploadItem)
  (files : list File) :
  let r := processFiles randomUUID queue files in
  firstn (length queue) (queue_after r) = queue /\
  Forall (fun it => status it = uploading /\ progress it = 0 /\
                    extractedData it = None /\ errorMessage it = None)
    (newItems r) /\
  (alerted r <> None <->
   newItems r = [] /\ exists f, In f files /\ is_pdf f = false) /\
  (length queue = 5%nat ->
     newItems r = [] /\ queue_after r = queue /\
     (Forall (fun f => is_pdf f = true) files -> alerted r = None)).
Proof.
  intros r.
  assert (Hnon : existsb (fun f => negb (is_pdf f)) files = true <->
                 exists f, In f files /\ is_pdf f = false).
  { rewrite existsb_exists. split; intros (f & Hin & H); exists f;
      (split; [exact Hin|]); now apply negb_true_iff. }
  assert (Hfull : length queue = 5%nat -> newItems r = []).
  { intros Hlen.
    destruct (processFiles_spec randomUUID queue files) as [Hfiles _].
    fold r in Hfiles. rewrite Hlen in Hfiles. simpl in Hfiles.
    unfold Js.slice0 in Hfiles. simpl in Hfiles.
    rewrite Z.min_l in Hfiles by lia. simpl in Hfiles.
    destruct (newItems r); [reflexivity | discriminate]. }
  split; [|split; [|split]].
  - destruct (processFiles_spec randomUUID queue files) as [_ Hq].
    fold r in Hq. rewrite Hq.
    rewrite firstn_app, Nat.sub_diag, firstn_all. simpl. apply app_nil_r.
  - apply List.Forall_forall. intros it Hin. subst r.
    rewrite processFiles_newItems in Hin. now apply imap_fields in Hin.
  - subst r. unfold processFiles.
    match goal with |- context [imap ?g ?l] =>
      destruct (imap g l) as [|x created]; simpl
    end.
    + rewrite <- Hnon.
      destruct (existsb _ files); split; try tauto; try discriminate.
      intros [_ H]; discriminate.
    + split; [intros H; now elim H | intros [H _]; discriminate].
  - intros Hlen. pose proof (Hfull Hlen) as Hnil.
    split; [exact Hnil|]. split.
    + destruct (processFiles_spec randomUUID queue files) as [_ Hq].
      fold r in Hq. rewrite Hq, Hnil. apply app_nil_r.
    + intros Hall. subst r. unfold processFiles in *.
      match goal with |- context [imap ?g ?l] =>
        destruct (imap g l) as [|x created]; simpl; [|reflexivity]
      end.
      assert (E : existsb (fun f => negb (is_pdf f)) files = false).
      { apply not_true_iff_false. rewrite Hnon. intros (f & Hin & Hf).
        rewrite List.Forall_forall in Hall. rewrite (Hall f Hin) in Hf.
        discriminate. }
      rewrite E. reflexivity.
Qed.

Lemma processFiles_edges_witness :
  newItems (processFiles numbered_uuid full_queue dropped_files) = [] /\
  queue_after (processFiles numbered_uuid full_queue dropped_files) = full_queue /\
  alerted (processFiles numbered_uuid full_queue five_pdfs) = None.
Proof.
  destruct (proj2 (proj2 (proj2
              (processFiles_edges numbered_uuid full_queue dropped_files)))
              eq_refl) as (H1 & H2 & _).
  destruct (proj2 (proj2 (proj2
              (processFiles_edges numbered_uuid full_queue five_pdfs)))
              eq_refl) as (_ & _ & H3).
  split; [exact H1 | split; [exact H2|]].
  apply H3. repeat constructor.
Defined.

Lemma updateQueueItem_map_ids (i : string) (f : UploadItem -> UploadItem)
  (queue : list UploadItem) :
  (forall q, upload_id (f q) = upload_id q) ->
  map upload_id (updateQueueItem i f queue) = map upload_id queue.
Proof.
  intros Hf. unfold updateQueueItem. rewrite map_map.
  apply map_ext. intros q. destruct (String.eqb _ _); [apply Hf | reflexivity].
Qed.

(** X16.  Removing an item removes every item with that identifier and
    nothing else.  Retrying an identifier that is not in the queue does
    nothing and restarts nothing.  Retrying one that is restarts that item
    and puts it back to [uploading] with progress 0 and no error, while the
    identifiers, the files, the order and the other items of the queue stay
    as they were. *)
Theorem retry_and_remove (i : string) (queue : list UploadItem) :
  (forall q, In q (removeQueueItem i queue) <-> In q queue /\ upload_id q <> i) /\
  (List.find (fun it => String.eqb (upload_id it) i) queue = None ->
     retryItem i queue = (queue, None)) /\
  (forall item,
     List.find (fun it => String.eqb (upload_id it) i) queue = Some item ->
     snd (retryItem i queue) = Some item /\
     upload_id item = i /\
     map upload_id (fst (retryItem i queue)) = map upload_id queue /\
     map file (fst (retryItem i queue)) = map file queue /\
     (forall q, In q (fst (retryItem i queue)) -> upload_id q = i ->
        status q = uploading /\ progress q = 0 /\ errorMessage q = None) /\
     (forall q, In q queue -> upload_id q <> i -> In q (fst (retryItem i queue)))).
Proof.
  split; [|split].
  - intros q. unfold removeQueueItem. rewrite filter_In, negb_true_iff.
    split; intros [H1 H2]; split; auto.
    + intros <-. rewrite String.eqb_refl in H2. discriminate.
    + destruct (String.eqb_spec (upload_id q) i); [contradiction | reflexivity].
  - intros Hfind. unfold retryItem. rewrite Hfind. reflexivity.
  - intros item Hfind. unfold retryItem. rewrite Hfind. simpl.
    split; [reflexivity|]. split.
    { apply find_some in Hfind. destruct Hfind as [_ H].
      now apply String.eqb_eq. }
    split; [now apply updateQueueItem_map_ids|].
    split; [|split].
    + unfold updateQueueItem. rewrite map_map. apply map_ext.
      intros q. destruct (String.eqb _ _); reflexivity.
    + intros q Hin Hid. unfold updateQueueItem in Hin.
      apply in_map_iff in Hin. destruct Hin as (q0 & Hq & _).
      destruct (String.eqb_spec (upload_id q0) i) as [E | N].
      * subst q. repeat split.
      * subst q. contradiction.
    + intros q Hin Hne. unfold updateQueueItem. apply in_map_iff.
      exists q. split; [|exact Hin].
      destruct (String.eqb_spec (upload_id q) i); [contradiction | reflexivity].
Qed.

Lemma retry_and_remove_witness :
  retryItem "no-such-id" full_queue = (full_queue, None) /\
  map upload_id (fst (retryItem "2" full_queue)) = map upload_id full_queue.
Proof.
  split.
  - apply (proj1 (proj2 (retry_and_remove "no-such-id" full_queue))).
    reflexivity.
  - destruct (proj2 (proj2 (retry_and_remove "2" full_queue))
                (mkUploadItem "2" (mkFile "3.pdf" "application/pdf")
                   uploading 0 None None) eq_refl) as (_ & _ & H & _).
    exact H.
Defined.

(** *** Who sees which entries *)

(** X17.  The team view is empty for anyone who is not a manager with a
    team.  For such a manager it holds exactly the entries of the collection
    whose owner is another profile of the same team; so it never holds an
    entry of the manager's own, and no entry is in both the personal and the
    team view. *)
Theorem team_view_membership (u : Profile) (all_profiles : list Profile)
  (commissions : list CommissionEntry) (c : CommissionEntry) :
  (role u <> MANAGER \/ Js.truthy (team_id u) = false ->
     teamCommissions u all_profiles commissions = []) /\
  (In c (teamCommissions u all_profiles commissions) <->
   role u = MANAGER /\ Js.truthy (team_id u) = true /\ In c commissions /\
   exists q, In q all_profiles /\ profile_id q = user_id c /\
             team_id q = team_id u /\ profile_id q <> profile_id u) /\
  (In c (myCommissions u commissions) <->
   In c commissions /\ user_id c = profile_id u) /\
  ~ (In c (teamCommissions u all_profiles commissions) /\
     In c (myCommissions u commissions)).
Proof.
  assert (Hopt : forall a b, option_string_eqb a b = true <-> a = b).
  { intros [a|] [b|]; simpl; split; try discriminate; try reflexivity.
    - intros H. apply String.eqb_eq in H. now subst.
    - intros H. injection H as ->. apply String.eqb_refl. }
  assert (Hmy : In c (myCommissions u commissions) <->
                In c commissions /\ user_id c = profile_id u).
  { unfold myCommissions. rewrite filter_In, String.eqb_eq. reflexivity. }
  assert (Hteam : In c (teamCommissions u all_profiles commissions) <->
     role u = MANAGER /\ Js.truthy (team_id u) = true /\ In c commissions /\
     exists q, In q all_profiles /\ profile_id q = user_id c /\
               team_id q = team_id u /\ profile_id q <> profile_id u).
  { unfold teamCommissions.
    destruct (role_eqb (role u) MANAGER) eqn:Er; simpl.
    2:{ split; [contradiction|]. intros (Hr & _). rewrite Hr in Er. discriminate. }
    assert (Hr : role u = MANAGER) by (destruct (role u); (reflexivity || discriminate)).
    destruct (Js.truthy (team_id u)) eqn:Et; simpl.
    2:{ split; [contradiction|]. intros (_ & Ht & _). discriminate. }
    rewrite filter_In, existsb_exists. split.
    - intros (Hin & x & Hx & Heq). apply String.eqb_eq in Heq.
      apply in_map_iff in Hx. destruct Hx as (q & <- & Hq).
      apply filter_In in Hq. destruct Hq as (Hq & Hcond).
      apply andb_true_iff in Hcond. destruct Hcond as (H1 & H2).
      apply Hopt in H1. apply negb_true_iff, String.eqb_neq in H2.
      repeat split; auto. exists q. repeat split; auto.
    - intros (_ & _ & Hin & q & Hq & Hid & Hteam & Hne).
      split; [exact Hin|]. exists (profile_id q). split.
      + apply in_map. apply filter_In. split; [exact Hq|].
        apply andb_true_iff. split; [now apply Hopt|].
        now apply negb_true_iff, String.eqb_neq.
      + apply String.eqb_eq. now symmetry. }
  split; [|split; [exact Hteam | split; [exact Hmy|]]].
  - intros H. unfold teamCommissions.
    destruct H as [H | H].
    + destruct (role u); try reflexivity. now elim H.
    + rewrite H. simpl. rewrite orb_true_r. reflexivity.
  - rewrite Hteam, Hmy.
    intros ((_ & _ & _ & q & _ & Hid & _ & Hne) & _ & Hown). congruence.
Qed.

Lemma team_view_membership_witness :
  teamCommissions alex MOCK_PROFILES MOCK_ENTRIES = [] /\
  teamCommissions bob MOCK_PROFILES MOCK_ENTRIES = MOCK_ENTRIES.
Proof.
  split.
  - apply (proj1 (team_view_membership alex MOCK_PROFILES MOCK_ENTRIES mock_1)).
    left. discriminate.
  - reflexivity.
Defined.

(** *** The invariant of the collection *)

(** X18.  In every collection [App] can reach from its seed data, through
    any sequence of manual adds, review saves, inline edits and deletes,
    each entry has, as doubles,
    [net_total = amount_before_vat - cost_before_vat] and
    [net_to_pay = net_total * (commission_rate / 100)]. *)
Theorem reachable_collections_are_consistent (commissions : list CommissionEntry) :
  collection_reachable commissions -> Forall derived_ok commissions.
Proof.
  induction 1 as [| cs cs' _ IH Hm | r cs _ IH].
  - apply derived_ok_MOCK_ENTRIES.
  - rewrite List.Forall_forall in *. intros e Hin.
    destruct (mutation_entries _ _ _ Hm Hin); auto.
  - destruct r as [i|]; simpl; [|exact IH].
    rewrite List.Forall_forall in *. intros e Hin.
    apply handleDeleteCommission_In in Hin. apply IH. tauto.
Qed.

Lemma reachable_collections_witness :
  Forall derived_ok (handleDeleteCommission "1" seed_after_cost_edit).
Proof.
  apply reachable_collections_are_consistent.
  apply (reach_delete (Some "1")).
  apply (reach_mutation MOCK_ENTRIES); [apply reach_seed|].
  unfold seed_after_cost_edit.
  apply (mut_inline_edit MOCK_ENTRIES ascii_runtime
           (commissions_view alex MOCK_ENTRIES)
           (initial_list_state alex) "2023-12-01" "2"
           (EditNumber N_cost_before_vat 2000)).
  apply out_ret.
Defined.

(** *** The conversion record *)

Lemma EXCHANGE_RATES_positive (c : string) (r : float) :
  EXCHANGE_RATES !! c = Some r -> PrimFloat.ltb 0 r = true.
Proof.
  unfold EXCHANGE_RATES. simpl list_to_map. intros H.
  repeat (apply lookup_insert_Some in H;
          destruct H as [[_ <-] | [_ H]]; [reflexivity|]).
  rewrite lookup_empty in H. discriminate.
Qed.

(** X19.  Whenever the mapping keeps a conversion record, the record tells
    how the draft amount was obtained: its original amount is the extracted
    amount and is positive, its currency is the upper-cased code, which is
    not THB, its rate is the positive rate of that currency in the table,
    and the draft amount is the double product of the two put through
    [toFixed(2)]. *)
Theorem conversion_record_explains_amount (rt : Runtime) (item : RawInvoice)
  (info : ConversionInfo) :
  snd (convert_amount rt item) = Some info ->
  originalAmount info = number_or (raw_amount_before_vat item) 0 /\
  PrimFloat.ltb 0 (originalAmount info) = true /\
  originalCurrency info
    = toUpperCase rt (Js.or_else (raw_currency_code item) "THB") /\
  originalCurrency info <> "THB" /\
  EXCHANGE_RATES !! originalCurrency info = Some (rate info) /\
  PrimFloat.ltb 0 (rate info) = true /\
  fst (convert_amount rt item)
    = Js.toFixed2 (originalAmount info * rate info).
Proof.
  unfold convert_amount.
  set (amount := number_or (raw_amount_before_vat item) 0).
  set (code := toUpperCase rt (Js.or_else (raw_currency_code item) "THB")).
  destruct (negb (String.eqb code "THB")) eqn:Ethb; simpl; [|discriminate].
  destruct (PrimFloat.ltb 0 amount) eqn:Epos; simpl; [|discriminate].
  destruct (EXCHANGE_RATES !! code) as [r|] eqn:Er; [|discriminate].
  destruct (Js.truthy_num r); [|discriminate].
  simpl. intros H. injection H as <-. simpl.
  split; [reflexivity|]. split; [exact Epos|]. split; [reflexivity|].
  split.
  { apply negb_true_iff in Ethb. now apply String.eqb_neq. }
  split; [exact Er|].
  split; [exact (EXCHANGE_RATES_positive code r Er) | reflexivity].
Qed.

Lemma conversion_record_witness :
  fst (convert_amount ascii_runtime
         (mkRaw (Some "INV-7") None None (Some 99.99%float) (Some "usd")
            None None))
  = Js.toFixed2 (99.99 * 34.5).
Proof.
  destruct (conversion_record_explains_amount ascii_runtime
              (mkRaw (Some "INV-7") None None (Some 99.99%float) (Some "usd")
                 None None)
              (mkConversion "USD" 99.99%float 34.5%float) eq_refl)
    as (_ & _ & _ & _ & _ & _ & H).
  exact H.
Defined.

(** *** Dashboard figures *)

Lemma kpiData_invariant (filtered : list CommissionEntry) (acc : Dashboard.Summary) :
  let f := fun summary e =>
    {| Dashboard.total := Dashboard.bump (Dashboard.total summary) e;
       Dashboard.unpaid :=
         match commission_status e with
         | UNPAID => Dashboard.bump (Dashboard.unpaid summary) e
         | _ => Dashboard.unpaid summary
         end;
       Dashboard.eligible :=
         match commission_status e with
         | ELIGIBLE => Dashboard.bump (Dashboard.eligible summary) e
         | _ => Dashboard.eligible summary
         end;
       Dashboard.paid :=
         match commission_status e with
         | PAID => Dashboard.bump (Dashboard.paid summary) e
         | _ => Dashboard.paid summary
         end |} in
  let k := fold_left f filtered acc in
  let add := fun (x : float) e => (x + net_to_pay e)%float in
  let of_status st :=
    List.filter (fun e => status_eqb (commission_status e) st) filtered in
  (Dashboard.count (Dashboard.total acc)
     = Dashboard.count (Dashboard.unpaid acc)
       + Dashboard.count (Dashboard.eligible acc)
       + Dashboard.count (Dashboard.paid acc) ->
   Dashboard.count (Dashboard.total k)
     = Dashboard.count (Dashboard.unpaid k)
       + Dashboard.count (Dashboard.eligible k)
       + Dashboard.count (Dashboard.paid k)) /\
  Dashboard.count (Dashboard.total k)
    = Dashboard.count (Dashboard.total acc) + Z.of_nat (length filtered) /\
  Dashboard.amount (Dashboard.total k)
    = fold_left add filtered (Dashboard.amount (Dashboard.total acc)) /\
  Dashboard.amount (Dashboard.unpaid k)
    = fold_left add (of_status UNPAID) (Dashboard.amount (Dashboard.unpaid acc)) /\
  Dashboard.amount (Dashboard.eligible k)
    = fold_left add (of_status ELIGIBLE)
        (Dashboard.amount (Dashboard.eligible acc)) /\
  Dashboard.amount (Dashboard.paid k)
    = fold_left add (of_status PAID) (Dashboard.amount (Dashboard.paid acc)).
Proof.
  intros f k add. subst k. revert acc.
  induction filtered as [|e l IH]; intros acc of_status.
  - simpl. split; [auto|]. split; [lia|]. repeat split.
  - simpl fold_left.
    destruct (IH (f acc e)) as (H1 & H2 & H3 & H4 & H5 & H6).
    split; [|split; [|split; [|split; [|split]]]].
    + intros Hc. apply H1. subst f; simpl.
      destruct (commission_status e); simpl; lia.
    + rewrite H2. subst f.
      cbn [Dashboard.count Dashboard.total Dashboard.bump length]. lia.
    + rewrite H3. reflexivity.
    + rewrite H4. subst of_status f. simpl.
      destruct (commission_status e); reflexivity.
    + rewrite H5. subst of_status f. simpl.
      destruct (commission_status e); reflexivity.
    + rewrite H6. subst of_status f. simpl.
      destruct (commission_status e); reflexivity.
Qed.

(** X20.  On the dashboard the filtered entries are those whose invoice
    month lies, as a string, between the two ends of the date range.  The
    count of the total card is the number of filtered entries and the sum of
    the three status counts.  The amount of the total card is the sum of the
    net to pay of the filtered entries, and the amount of each status card
    is that sum over the filtered entries of that status, all added up from
    0 in the order of the entries.  The status chart has at most three
    slices, each with a positive amount. *)
Theorem dashboard_figures (entries : list CommissionEntry)
  (r : Dashboard.DateRange) :
  let filtered := Dashboard.filteredEntries entries r in
  let k := Dashboard.kpiData filtered in
  let of_status st :=
    List.filter (fun e => status_eqb (commission_status e) st) filtered in
  (forall e, In e filtered <->
     In e entries /\
     String.leb (Dashboard.range_start r) (invoice_month e) = true /\
     String.leb (invoice_month e) (Dashboard.range_end r) = true) /\
  Dashboard.count (Dashboard.total k) = Z.of_nat (length filtered) /\
  Dashboard.count (Dashboard.total k)
    = Dashboard.count (Dashboard.unpaid k)
      + Dashboard.count (Dashboard.eligible k)
      + Dashboard.count (Dashboard.paid k) /\
  Dashboard.amount (Dashboard.total k) = sum_of net_to_pay filtered /\
  Dashboard.amount (Dashboard.unpaid k) = sum_of net_to_pay (of_status UNPAID) /\
  Dashboard.amount (Dashboard.eligible k)
    = sum_of net_to_pay (of_status ELIGIBLE) /\
  Dashboard.amount (Dashboard.paid k) = sum_of net_to_pay (of_status PAID) /\
  (length (Dashboard.statusData k) <= 3)%nat /\
  Forall (fun d => PrimFloat.ltb 0 (Dashboard.slice_value d) = true)
    (Dashboard.statusData k).
Proof.
  intros filtered k of_status.
  destruct (kpiData_invariant filtered
              (Dashboard.mkSummary (Dashboard.mkKpi 0 0) (Dashboard.mkKpi 0 0)
                 (Dashboard.mkKpi 0 0) (Dashboard.mkKpi 0 0)))
    as (H1 & H2 & H3 & H4 & H5 & H6).
  fold (Dashboard.kpiData filtered) in H1, H2, H3, H4, H5, H6.
  fold k in H1, H2, H3, H4, H5, H6.
  split; [|split; [|split; [|split; [|split; [|split; [|split; [|split]]]]]]].
  - intros e. subst filtered. unfold Dashboard.filteredEntries, Dashboard.in_range.
    rewrite filter_In, andb_true_iff. reflexivity.
  - rewrite H2. simpl. lia.
  - apply H1. reflexivity.
  - exact H3.
  - exact H4.
  - exact H5.
  - exact H6.
  - unfold Dashboard.statusData.
    etransitivity; [apply length_filter_le | simpl; lia].
  - unfold Dashboard.statusData. apply List.Forall_forall.
    intros d Hd. apply filter_In in Hd. destruct Hd as [_ Hd]. exact Hd.
Qed.

(** The dashboard of the seed data over the last quarter of 2023. *)
Example dashboard_of_seed :
  let k :=
    Dashboard.kpiData
      (Dashboard.filteredEntries MOCK_ENTRIES
         (Dashboard.mkRange "2023-10-01" "2023-12-31")) in
  Dashboard.total k = Dashboard.mkKpi 1225 3 /\
  Dashboard.unpaid k = Dashboard.mkKpi 400 1 /\
  Dashboard.eligible k = Dashboard.mkKpi 600 1 /\
  Dashboard.paid k = Dashboard.mkKpi 225 1 /\
  map Dashboard.slice_name (Dashboard.statusData k) = ["Paid"; "Eligible"; "Unpaid"].
Proof. repeat split; reflexivity. Qed.

(** *** Profiles *)


